(** * Mini e-commerce backend: access control and resource handlers

    A shallow embedding of [main.py] and [schemas.py].  The handlers are
    written in a state-and-exception monad over the document store; the
    Python and MongoDB primitives they call are modelled first. *)

From Stdlib Require Import ZArith List Strings.String Strings.Ascii Strings.Byte Bool Lia.
From Stdlib Require Import Permutation Sorted SpecFloat.
Import ListNotations.

Local Open Scope string_scope.
Local Open Scope list_scope.
Local Open Scope Z_scope.

(* ===================================================================== *)
(** ** Python values used by the handlers *)

Module Py.

(** Truthiness of a [str]: the empty string is falsy. *)
Definition truthy (s : string) : bool :=
  match s with EmptyString => false | String _ _ => true end.

(** [s.startswith(p)]. *)
Definition startswith (s p : string) : bool := String.prefix p s.

(** [s.split(" ", 1)] for a one-character separator: at most one cut,
    at the first occurrence of the separator. *)
Fixpoint split1 (sep : ascii) (s : string) : list string :=
  match s with
  | EmptyString => [EmptyString]
  | String c rest =>
      if Ascii.eqb c sep then [EmptyString; rest]
      else match split1 sep rest with
           | hd :: tl => String c hd :: tl
           | [] => [String c EmptyString]
           end
  end.

(** *** bytes and their hexadecimal rendering ([bytes.hex], [token_hex],
    [hexdigest], [str(ObjectId)]) *)

Definition bytes := list byte.

Definition hexdigit (n : N) : ascii :=
  ascii_of_N (if (n <? 10)%N then 48 + n else 87 + n)%N.

Definition hex_of_byte (b : byte) (k : string) : string :=
  String (hexdigit (Byte.to_N b / 16)) (String (hexdigit (Byte.to_N b mod 16)) k).

Definition hexlify (bs : bytes) : string :=
  fold_right hex_of_byte EmptyString bs.

(** Value of a hexadecimal digit, either case ([bytes.fromhex]). *)
Definition hexval (c : ascii) : option N :=
  let n := N_of_ascii c in
  if ((48 <=? n) && (n <=? 57))%N then Some (n - 48)%N
  else if ((97 <=? n) && (n <=? 102))%N then Some (n - 87)%N
  else if ((65 <=? n) && (n <=? 70))%N then Some (n - 55)%N
  else None.

Fixpoint unhexlify (s : string) : option bytes :=
  match s with
  | EmptyString => Some []
  | String hi (String lo rest) =>
      match hexval hi, hexval lo, unhexlify rest with
      | Some h, Some l, Some bs =>
          option_map (fun b => b :: bs) (Byte.of_N (16 * h + l))
      | _, _, _ => None
      end
  | String _ EmptyString => None
  end.

(** ASCII whitespace: space, and tab to carriage return. *)
Definition isspace (c : ascii) : bool :=
  let n := N_of_ascii c in
  (n =? 32)%N || ((9 <=? n) && (n <=? 13))%N.

(** [bytes.fromhex(s)]: two hexadecimal digits per byte, ASCII whitespace
    before a byte is skipped; anything else is a ValueError ([None]). *)
Fixpoint fromhex (s : string) : option bytes :=
  match s with
  | EmptyString => Some []
  | String c rest =>
      if isspace c then fromhex rest
      else match rest with
           | EmptyString => None
           | String lo rest' =>
               match hexval c, hexval lo, fromhex rest' with
               | Some h, Some l, Some bs =>
                   option_map (fun b => b :: bs) (Byte.of_N (16 * h + l))
               | _, _, _ => None
               end
           end
  end.

Definition bytes_eqb (a b : bytes) : bool :=
  String.eqb (string_of_list_byte a) (string_of_list_byte b).

(** [secrets.token_hex(nbytes)]: the hexadecimal text of [nbytes] bytes
    drawn from the operating system's random source.  The drawn bytes
    are the argument [drawn]. *)
Definition token_hex (drawn : bytes) : string := hexlify drawn.

(** *** float: IEEE 754 binary64 *)

Definition float := spec_float.
Definition prec : Z := 53.
Definition emax : Z := 1024.

Definition fadd : float -> float -> float := SFadd prec emax.
Definition fmul : float -> float -> float := SFmul prec emax.
Definition fleb : float -> float -> bool := SFleb.
Definition fltb : float -> float -> bool := SFltb.
Definition fzero : float := S754_zero false.

(** [float(n)] for an [int]: round to nearest even; an [int] beyond the
    float range raises OverflowError ([None]). *)
Definition float_of_int (n : Z) : option float :=
  match binary_normalize prec emax n 0 false with
  | S754_infinity _ => None
  | f => Some f
  end.

(** [x * n] with [x] a float and [n] an int. *)
Definition fmul_int (x : float) (n : Z) : option float :=
  option_map (fmul x) (float_of_int n).

(** [sum(xs)] over floats, added from left to right; the start value is
    the int [0], so the first addition is [0 + x].  (CPython from 3.12
    on also carries a compensation term for the rounding errors; it is
    zero whenever the partial sums are exact.) *)
Definition sum (xs : list float) : float := fold_left fadd xs fzero.

End Py.

(* ===================================================================== *)
(** ** hashlib.sha256 *)

Module Sha256.

Definition w32 (x : Z) : Z := x mod 2 ^ 32.
Definition add32 (x y : Z) : Z := w32 (x + y).
Definition rotr (n x : Z) : Z :=
  Z.lor (Z.shiftr x n) (w32 (Z.shiftl x (32 - n))).
Definition not32 (x : Z) : Z := 2 ^ 32 - 1 - x.

Definition primes : list Z :=
  [2; 3; 5; 7; 11; 13; 17; 19; 23; 29; 31; 37; 41; 43; 47; 53;
   59; 61; 67; 71; 73; 79; 83; 89; 97; 101; 103; 107; 109; 113; 127; 131;
   137; 139; 149; 151; 157; 163; 167; 173; 179; 181; 191; 193; 197; 199;
   211; 223; 227; 229; 233; 239; 241; 251; 257; 263; 269; 271; 277; 281;
   283; 293; 307; 311].

(** Integer cube root, one bit at a time from bit [bits - 1] down. *)
Fixpoint icbrt (bits : nat) (n r : Z) : Z :=
  match bits with
  | O => r
  | S b =>
      let c := r + 2 ^ Z.of_nat b in
      icbrt b n (if c * c * c <=? n then c else r)
  end.

(** Round constants: the first 32 bits of the fractional parts of the
    cube roots of the first 64 primes. *)
Definition K : list Z :=
  Eval vm_compute in map (fun p => w32 (icbrt 40 (p * 2 ^ 96) 0)) primes.

(** Initial hash value: the same for the square roots of the first 8. *)
Definition H0 : list Z :=
  Eval vm_compute in map (fun p => w32 (Z.sqrt (p * 2 ^ 64))) (firstn 8 primes).

Definition be_bytes (width : nat) (x : Z) : list Z :=
  map (fun i => Z.shiftr x (8 * Z.of_nat i) mod 256) (rev (seq 0 width)).

Definition pad (msg : list Z) : list Z :=
  let len := Z.of_nat (List.length msg) in
  msg ++ [128] ++ repeat 0 (Z.to_nat ((55 - len) mod 64)) ++ be_bytes 8 (8 * len).

Fixpoint be_words (n : nat) (bs : list Z) : list Z :=
  match n, bs with
  | S n', a :: b :: c :: d :: rest =>
      (((a * 256 + b) * 256 + c) * 256 + d) :: be_words n' rest
  | _, _ => []
  end.

Fixpoint schedule (n : nat) (w : list Z) : list Z :=
  match n with
  | O => w
  | S n' =>
      let i := List.length w in
      let at_ k := nth (i - k) w 0 in
      let s0 := Z.lxor (Z.lxor (rotr 7 (at_ 15%nat)) (rotr 18 (at_ 15%nat)))
                       (Z.shiftr (at_ 15%nat) 3) in
      let s1 := Z.lxor (Z.lxor (rotr 17 (at_ 2%nat)) (rotr 19 (at_ 2%nat)))
                       (Z.shiftr (at_ 2%nat) 10) in
      schedule n' (w ++ [add32 (add32 (add32 (at_ 16%nat) s0) (at_ 7%nat)) s1])
  end.

Definition round (st : list Z) (kw : Z * Z) : list Z :=
  match st with
  | [a; b; c; d; e; f; g; h] =>
      let S1 := Z.lxor (Z.lxor (rotr 6 e) (rotr 11 e)) (rotr 25 e) in
      let ch := Z.lxor (Z.land e f) (Z.land (not32 e) g) in
      let t1 := add32 (add32 (add32 (add32 h S1) ch) (fst kw)) (snd kw) in
      let S0 := Z.lxor (Z.lxor (rotr 2 a) (rotr 13 a)) (rotr 22 a) in
      let maj := Z.lxor (Z.lxor (Z.land a b) (Z.land a c)) (Z.land b c) in
      let t2 := add32 S0 maj in
      [add32 t1 t2; a; b; c; add32 d t1; e; f; g]
  | _ => st
  end.

Definition compress (h : list Z) (block : list Z) : list Z :=
  let w := schedule 48 (be_words 16 block) in
  map (fun p => add32 (fst p) (snd p))
      (combine h (fold_left round (combine K w) h)).

Fixpoint blocks (n : nat) (h : list Z) (bs : list Z) : list Z :=
  match n with
  | O => h
  | S n' => blocks n' (compress h (firstn 64 bs)) (skipn 64 bs)
  end.

Definition byte_of_Z (z : Z) : byte :=
  match Byte.of_N (Z.to_N (z mod 256)) with Some b => b | None => x00 end.

Definition digest (msg : Py.bytes) : Py.bytes :=
  let padded := pad (map (fun b => Z.of_N (Byte.to_N b)) msg) in
  let h := blocks (List.length padded / 64) H0 padded in
  map byte_of_Z (flat_map (be_bytes 4) h).

Definition hexdigest (msg : Py.bytes) : string := Py.hexlify (digest msg).

End Sha256.

(* ===================================================================== *)
(** ** bson.ObjectId *)

Module Bson.

(** The bytes of an ObjectId: twelve for every [_id] MongoDB assigns. *)
Definition ObjectId := Py.bytes.

(** [ObjectId(s)] for a [str]: a string of length 24 that
    [bytes.fromhex] accepts, otherwise InvalidId ([None]).  Since
    [fromhex] skips whitespace, a string of 24 characters with blanks
    between the bytes is accepted and gives fewer than twelve bytes. *)
Definition ObjectId_of_str (s : string) : option ObjectId :=
  if Nat.eqb (String.length s) 24 then Py.fromhex s else None.

(** The integers BSON can encode: eight bytes, signed. *)
Definition int64 (n : Z) : bool := (- 2 ^ 63 <=? n) && (n <=? 2 ^ 63 - 1).

(** [str(oid)]. *)
Definition str (oid : ObjectId) : string := Py.hexlify oid.

Definition eqb : ObjectId -> ObjectId -> bool := Py.bytes_eqb.

End Bson.

(* ===================================================================== *)
(** ** The regular expressions of [$regex]

    MongoDB hands the pattern to PCRE.  Only the fragment needed here is
    modelled: patterns made of ASCII literals and the wildcard [.],
    matched on bytes.  [compile] answers [None] on any other pattern.
    On ASCII text this is PCRE's matching; on other text PCRE works on
    code points and folds case by Unicode rules (so [k] also matches the
    Kelvin sign), which the bytes here do not show: statements about
    [search] are made for ASCII text. *)

Module Regex.

Inductive atom := Lit (c : ascii) | AnyChar.

Definition metachars : string := "\^$.|?*+()[]{}".

Fixpoint mem (c : ascii) (s : string) : bool :=
  match s with
  | EmptyString => false
  | String d r => Ascii.eqb c d || mem c r
  end.

Fixpoint compile (pattern : string) : option (list atom) :=
  match pattern with
  | EmptyString => Some []
  | String c r =>
      let a :=
        if Ascii.eqb c "." then Some AnyChar
        else if mem c metachars || (128 <=? N_of_ascii c)%N then None
        else Some (Lit c) in
      match a, compile r with
      | Some a, Some re => Some (a :: re)
      | _, _ => None
      end
  end.

(** ASCII case folding, as option [i] does on ASCII letters. *)
Definition lower (c : ascii) : ascii :=
  let n := N_of_ascii c in
  if ((65 <=? n) && (n <=? 90))%N then ascii_of_N (n + 32) else c.

Definition atom_matches (a : atom) (c : ascii) : bool :=
  match a with
  | Lit l => Ascii.eqb (lower l) (lower c)
  | AnyChar => negb (Ascii.eqb c "010")
  end.

Fixpoint match_here (re : list atom) (text : string) : bool :=
  match re, text with
  | [], _ => true
  | a :: re', String c text' => atom_matches a c && match_here re' text'
  | _ :: _, EmptyString => false
  end.

(** Unanchored search: a match starting at some position of [text]. *)
Fixpoint search (re : list atom) (text : string) : bool :=
  match_here re text ||
  match text with
  | EmptyString => false
  | String _ text' => search re text'
  end.

End Regex.

(* ===================================================================== *)
(** ** schemas.py *)

(** A stored document: the model's fields, the [_id] MongoDB gives it and
    the two timestamps [create_document] adds.  [I] is [ObjectId] in the
    store and [string] once a handler has rewritten [_id] for output. *)
Record Doc (I A : Type) : Type := mkDoc
  { _id : I; fields : A; created_at : Z; updated_at : Z }.
Arguments mkDoc {I A}.
Arguments _id {I A}.
Arguments fields {I A}.
Arguments created_at {I A}.
Arguments updated_at {I A}.

Module User.
Record t : Type := mk
  { name : string;
    email : string;
    password_hash : string;
    address : option string;
    is_admin : bool;
    token : option string }.
End User.

Module Product.
Record t : Type := mk
  { title : string;
    description : option string;
    price : Py.float;
    category : string;
    image : option string;
    in_stock : bool }.

(** [price: float = Field(..., ge=0)]. *)
Definition valid (p : t) : bool := Py.fleb Py.fzero (price p).
End Product.

Module OrderItem.
Record t : Type := mk
  { product_id : string;
    title : string;
    price : Py.float;
    quantity : Z;
    image : option string }.

(** [quantity: int = Field(..., ge=1)]; [price: float] is unconstrained. *)
Definition valid (i : t) : bool := 1 <=? quantity i.
End OrderItem.

Module Order.
Record t : Type := mk
  { user_id : option string;
    name : string;
    address : string;
    payment_method : string;
    items : list OrderItem.t;
    total : Py.float;
    status : string }.

(** [total: float = Field(..., ge=0)].  The items are OrderItem
    instances already and are taken as they are. *)
Definition valid (o : t) : bool := Py.fleb Py.fzero (total o).
End Order.

(* ===================================================================== *)
(** ** The store, the environment and the handler monad *)

Record Store : Type := mkStore
  { user_docs : list (Doc Bson.ObjectId User.t);
    product_docs : list (Doc Bson.ObjectId Product.t);
    order_docs : list (Doc Bson.ObjectId Order.t) }.

(** What one request takes from outside the program: the [_id] MongoDB
    gives to an inserted document, the clock, and the bytes of the
    operating system's random source. *)
Record Env : Type := mkEnv
  { inserted_id : Bson.ObjectId;
    utcnow : Z;
    urandom : nat -> byte }.

Inductive Exn : Type :=
| HTTPException (status_code : Z) (detail : string)
| ValidationError
| OverflowError
| IndexError
| NotModelled.   (* no exception of the program: an input this model does not cover *)

Inductive Result (A : Type) : Type :=
| Ok (a : A)
| Raise (e : Exn).
Arguments Ok {A}.
Arguments Raise {A}.

Definition M (A : Type) : Type := Env -> Store -> Result A * Store.

Definition ret {A} (a : A) : M A := fun _ s => (Ok a, s).

Definition raise {A} (e : Exn) : M A := fun _ s => (Raise e, s).

Definition bind {A B} (m : M A) (k : A -> M B) : M B :=
  fun env s =>
    match m env s with
    | (Ok a, s') => k a env s'
    | (Raise e, s') => (Raise e, s')
    end.

Declare Scope handler_scope.
Delimit Scope handler_scope with handler.
Notation "x <- m ;; k" := (bind m (fun x => k))
  (at level 61, m at next level, right associativity) : handler_scope.
Local Open Scope handler_scope.

(** The status of the response FastAPI sends for an outcome: an
    HTTPException carries its own, any other exception is a 500.  For a
    handler that returns, 200 is the status when the response can be
    written as JSON; a returned float that is infinite or NaN cannot,
    and FastAPI then answers 500, which this function does not tell. *)
Definition status {A} (r : Result A) : Z :=
  match r with
  | Ok _ => 200
  | Raise (HTTPException code _) => code
  | Raise _ => 500
  end.

(** *** Collections: [db["user"]], [db["product"]], [db["order"]] *)

(** [bson_ok] tells whether the driver can encode a document of the
    collection: an [int] beyond eight bytes has no BSON encoding. *)
Record Collection (A : Type) : Type := mkCollection
  { docs : Store -> list (Doc Bson.ObjectId A);
    with_docs : list (Doc Bson.ObjectId A) -> Store -> Store;
    bson_ok : A -> bool }.
Arguments docs {A}.
Arguments with_docs {A}.
Arguments bson_ok {A}.

Module Db.
Definition user : Collection User.t :=
  mkCollection _ user_docs (fun l s => mkStore l (product_docs s) (order_docs s))
               (fun _ => true).
Definition product : Collection Product.t :=
  mkCollection _ product_docs (fun l s => mkStore (user_docs s) l (order_docs s))
               (fun _ => true).
Definition order : Collection Order.t :=
  mkCollection _ order_docs (fun l s => mkStore (user_docs s) (product_docs s) l)
               (fun o => forallb (fun i => Bson.int64 (OrderItem.quantity i))
                                 (Order.items o)).
End Db.

Module Mongo.
Section Ops.
Context {A : Type}.
Abbreviation doc := (Doc Bson.ObjectId A).

(** [find_one(q)]: the first document matching [q]. *)
Definition find_one (c : Collection A) (q : doc -> bool) : M (option doc) :=
  fun _ s => (Ok (List.find q (docs c s)), s).

(** [find(q)]: the matching documents, in store order. *)
Definition find (c : Collection A) (q : doc -> bool) : M (list doc) :=
  fun _ s => (Ok (filter q (docs c s)), s).

(** A document after [$set]: the named fields change, [_id] and the
    timestamps stay. *)
Definition touched (set : A -> A) (d : doc) : doc :=
  mkDoc (_id d) (set (fields d)) (created_at d) (updated_at d).

(** [update_one(q, {"$set": ...})] changes the first matching
    document. *)
Fixpoint update_first (q : doc -> bool) (set : A -> A) (l : list doc)
  : list doc * Z :=
  match l with
  | [] => ([], 0)
  | d :: r =>
      if q d
      then (touched set d :: r, 1)
      else let (r', n) := update_first q set r in (d :: r', n)
  end.

(** The result is [matched_count]. *)
Definition update_one (c : Collection A) (q : doc -> bool) (set : A -> A) : M Z :=
  fun _ s =>
    let (l, n) := update_first q set (docs c s) in (Ok n, with_docs c l s).

Fixpoint delete_first (q : doc -> bool) (l : list doc) : list doc * Z :=
  match l with
  | [] => ([], 0)
  | d :: r =>
      if q d then (r, 1)
      else let (r', n) := delete_first q r in (d :: r', n)
  end.

(** The result is [deleted_count]. *)
Definition delete_one (c : Collection A) (q : doc -> bool) : M Z :=
  fun _ s =>
    let (l, n) := delete_first q (docs c s) in (Ok n, with_docs c l s).

(** [insert_one(d)]: a document the driver cannot encode raises
    OverflowError and nothing is written. *)
Definition insert_one (c : Collection A) (d : doc) : M Bson.ObjectId :=
  fun _ s =>
    if bson_ok c (fields d)
    then (Ok (_id d), with_docs c (docs c s ++ [d]) s)
    else (Raise OverflowError, s).

(** [.sort("created_at", -1)]. *)
Fixpoint insert_desc (d : doc) (l : list doc) : list doc :=
  match l with
  | [] => [d]
  | x :: r =>
      if created_at x <=? created_at d then d :: l
      else x :: insert_desc d r
  end.

Definition sort_created_at_desc (l : list doc) : list doc :=
  fold_right insert_desc [] l.
End Ops.
End Mongo.

(** Modelled from the spec: [create_document] of [database.py], which is
    not among the sources.  The spec has the handlers persist the model
    they built and return the new document's identifier as a string, and
    has orders listed by creation time; so the document is inserted with
    the model's fields, the [_id] MongoDB assigns and the current time. *)
Definition create_document {A} (c : Collection A) (data : A) : M string :=
  fun env s =>
    (id <- Mongo.insert_one c (mkDoc (inserted_id env) data (utcnow env) (utcnow env)) ;;
     ret (Bson.str id)) env s.

(* ===================================================================== *)
(** ** main.py *)

Definition hash_password (password : string) : string :=
  Sha256.hexdigest (list_byte_of_string password).

(** [secrets.token_hex(n)]. *)
Definition token_hex (n : nat) : M string :=
  fun env s => (Ok (Py.token_hex (map (urandom env) (seq 0 n))), s).

(** The value of [doc] after [doc["_id"] = str(doc["_id"])]. *)
Definition str_id {A} (d : Doc Bson.ObjectId A) : Doc string A :=
  mkDoc (Bson.str (_id d)) (fields d) (created_at d) (updated_at d).

Definition token_is (t : string) (u : Doc Bson.ObjectId User.t) : bool :=
  match User.token (fields u) with
  | Some t' => String.eqb t' t
  | None => false
  end.

Definition user_from_token (token : option string) : M (option (Doc string User.t)) :=
  match token with
  | None => ret None
  | Some t =>
      if negb (Py.truthy t) then ret None
      else
        user <- Mongo.find_one Db.user (token_is t) ;;
        ret (option_map str_id user)
  end.

(** The three lines every authenticated handler starts with:
    [token = None] /
    [if authorization and authorization.startswith("Bearer "):] /
    [token = authorization.split(" ", 1)[1]]. *)
Definition bearer_token (authorization : option string) : M (option string) :=
  match authorization with
  | None => ret None
  | Some a =>
      if Py.truthy a && Py.startswith a "Bearer "
      then match nth_error (Py.split1 " " a) 1 with
           | Some t => ret (Some t)
           | None => raise IndexError
           end
      else ret None
  end.

Module SignupPayload.
Record t : Type := mk { name : string; email : string; password : string }.
End SignupPayload.

Module LoginPayload.
Record t : Type := mk { email : string; password : string }.
End LoginPayload.

Module ProductPayload.
Record t : Type := mk
  { title : string;
    description : option string;
    price : Py.float;
    category : string;
    image : option string;
    in_stock : bool }.

(** The body of a request as FastAPI reads it into a ProductPayload:
    [description], [image] and [in_stock] may be left out. *)
Record body : Type := mkBody
  { b_title : string;
    b_description : option string;
    b_price : Py.float;
    b_category : string;
    b_image : option string;
    b_in_stock : option bool }.

(** Defaults of the class: [description = None], [image = None],
    [in_stock = True]. *)
Definition of_body (b : body) : t :=
  mk (b_title b) (b_description b) (b_price b) (b_category b) (b_image b)
     (match b_in_stock b with Some v => v | None => true end).

(** One entry of [payload.model_dump()]. *)
Inductive item : Type :=
| Title (v : string)
| Description (v : option string)
| Price (v : Py.float)
| Category (v : string)
| Image (v : option string)
| In_stock (v : bool).

Definition model_dump (p : t) : list item :=
  [Title (title p); Description (description p); Price (price p);
   Category (category p); Image (image p); In_stock (in_stock p)].
End ProductPayload.

Module CheckoutPayload.
Record t : Type := mk
  { name : string;
    address : string;
    payment_method : string;
    items : list OrderItem.t }.
End CheckoutPayload.

(** [{"$set": {k: v}}] on a product document. *)
Definition set_item (p : Product.t) (kv : ProductPayload.item) : Product.t :=
  match kv with
  | ProductPayload.Title v =>
      Product.mk v (Product.description p) (Product.price p) (Product.category p)
                 (Product.image p) (Product.in_stock p)
  | ProductPayload.Description v =>
      Product.mk (Product.title p) v (Product.price p) (Product.category p)
                 (Product.image p) (Product.in_stock p)
  | ProductPayload.Price v =>
      Product.mk (Product.title p) (Product.description p) v (Product.category p)
                 (Product.image p) (Product.in_stock p)
  | ProductPayload.Category v =>
      Product.mk (Product.title p) (Product.description p) (Product.price p) v
                 (Product.image p) (Product.in_stock p)
  | ProductPayload.Image v =>
      Product.mk (Product.title p) (Product.description p) (Product.price p)
                 (Product.category p) v (Product.in_stock p)
  | ProductPayload.In_stock v =>
      Product.mk (Product.title p) (Product.description p) (Product.price p)
                 (Product.category p) (Product.image p) v
  end.

Definition set_items (update : list ProductPayload.item) (p : Product.t) : Product.t :=
  fold_left set_item update p.

(** The constructor [Product] called with the entries of [d] as keyword
    arguments (here always all six, from [model_dump]): they fill the
    fields, then the constraints are checked. *)
Definition Product_new (d : list ProductPayload.item) : M Product.t :=
  let p := set_items d (Product.mk "" None Py.fzero "" None true) in
  if Product.valid p then ret p else raise ValidationError.

Definition Order_new (o : Order.t) : M Order.t :=
  if Order.valid o then ret o else raise ValidationError.

(** *** Auth endpoints *)

Record SignupResponse : Type := mkSignupResponse
  { sr_message : string; sr_user_id : string }.

Definition signup (payload : SignupPayload.t) : M SignupResponse :=
  existing <- Mongo.find_one Db.user
                (fun u => String.eqb (User.email (fields u)) (SignupPayload.email payload)) ;;
  match existing with
  | Some _ => raise (HTTPException 400 "Email already registered")
  | None =>
      let new_user :=
        User.mk (SignupPayload.name payload)
                (SignupPayload.email payload)
                (hash_password (SignupPayload.password payload))
                None false None in
      user_id <- create_document Db.user new_user ;;
      ret (mkSignupResponse "Signup successful" user_id)
  end.

Record LoginResponse : Type := mkLoginResponse
  { lr_token : string; lr_name : string; lr_is_admin : bool }.

Definition set_token (t : string) (u : User.t) : User.t :=
  User.mk (User.name u) (User.email u) (User.password_hash u) (User.address u)
          (User.is_admin u) (Some t).

Definition login (payload : LoginPayload.t) : M LoginResponse :=
  user <- Mongo.find_one Db.user
            (fun u => String.eqb (User.email (fields u)) (LoginPayload.email payload)) ;;
  match user with
  | None => raise (HTTPException 401 "Invalid credentials")
  | Some user =>
      if negb (String.eqb (User.password_hash (fields user))
                          (hash_password (LoginPayload.password payload)))
      then raise (HTTPException 401 "Invalid credentials")
      else
        token <- token_hex 16 ;;
        _ <- Mongo.update_one Db.user (fun u => Bson.eqb (_id u) (_id user))
                              (set_token token) ;;
        ret (mkLoginResponse token (User.name (fields user))
                             (User.is_admin (fields user)))
  end.

Record MeResponse : Type := mkMeResponse
  { mr_name : string; mr_email : string; mr_is_admin : bool }.

Definition me (authorization : option string) : M MeResponse :=
  token <- bearer_token authorization ;;
  user <- user_from_token token ;;
  match user with
  | None => raise (HTTPException 401 "Unauthorized")
  | Some user =>
      ret (mkMeResponse (User.name (fields user)) (User.email (fields user))
                        (User.is_admin (fields user)))
  end.

(** *** Product endpoints *)

Definition list_products (search : option string)
  : M (list (Doc string Product.t)) :=
  query <-
    match search with
    | Some pattern =>
        if Py.truthy pattern
        then match Regex.compile pattern with
             | Some re =>
                 ret (fun p : Doc Bson.ObjectId Product.t =>
                        Regex.search re (Product.title (fields p))
                        || Regex.search re (Product.category (fields p)))
             | None => raise NotModelled
             end
        else ret (fun _ => true)
    | None => ret (fun _ => true)
    end ;;
  products <- Mongo.find Db.product query ;;
  ret (map str_id products).

Definition is_admin_user (user : option (Doc string User.t)) : bool :=
  match user with
  | Some u => User.is_admin (fields u)
  | None => false
  end.

Definition create_product (payload : ProductPayload.t) (authorization : option string)
  : M string :=
  token <- bearer_token authorization ;;
  user <- user_from_token token ;;
  if negb (is_admin_user user)
  then raise (HTTPException 403 "Admin only")
  else
    product <- Product_new (ProductPayload.model_dump payload) ;;
    product_id <- create_document Db.product product ;;
    ret product_id.

Definition update_product (product_id : string) (payload : ProductPayload.t)
           (authorization : option string) : M bool :=
  token <- bearer_token authorization ;;
  user <- user_from_token token ;;
  if negb (is_admin_user user)
  then raise (HTTPException 403 "Admin only")
  else
    match Bson.ObjectId_of_str product_id with
    | None => raise (HTTPException 400 "Invalid product id")
    | Some oid =>
        let update := ProductPayload.model_dump payload in
        matched_count <- Mongo.update_one Db.product (fun p => Bson.eqb (_id p) oid)
                                          (set_items update) ;;
        if matched_count =? 0
        then raise (HTTPException 404 "Product not found")
        else ret true
    end.

Definition delete_product (product_id : string) (authorization : option string)
  : M bool :=
  token <- bearer_token authorization ;;
  user <- user_from_token token ;;
  if negb (is_admin_user user)
  then raise (HTTPException 403 "Admin only")
  else
    match Bson.ObjectId_of_str product_id with
    | None => raise (HTTPException 400 "Invalid product id")
    | Some oid =>
        deleted_count <- Mongo.delete_one Db.product (fun p => Bson.eqb (_id p) oid) ;;
        if deleted_count =? 0
        then raise (HTTPException 404 "Product not found")
        else ret true
    end.

(** *** Orders *)

(** [item.price * item.quantity for item in payload.items]; [None] when
    a product raises OverflowError. *)
Fixpoint line_totals (items : list OrderItem.t) : option (list Py.float) :=
  match items with
  | [] => Some []
  | item :: rest =>
      match Py.fmul_int (OrderItem.price item) (OrderItem.quantity item),
            line_totals rest with
      | Some x, Some xs => Some (x :: xs)
      | _, _ => None
      end
  end.

(** [sum(item.price * item.quantity for item in payload.items)]. *)
Definition order_total (items : list OrderItem.t) : option Py.float :=
  option_map Py.sum (line_totals items).

Record OrderResponse : Type := mkOrderResponse
  { or_order_id : string; or_total : Py.float }.

Definition create_order (payload : CheckoutPayload.t) (authorization : option string)
  : M OrderResponse :=
  token <- bearer_token authorization ;;
  user <- user_from_token token ;;
  total <- match order_total (CheckoutPayload.items payload) with
           | Some total => ret total
           | None => raise OverflowError
           end ;;
  order <- Order_new
             (Order.mk (option_map _id user)
                       (CheckoutPayload.name payload)
                       (CheckoutPayload.address payload)
                       (CheckoutPayload.payment_method payload)
                       (CheckoutPayload.items payload)
                       total
                       "pending") ;;
  order_id <- create_document Db.order order ;;
  ret (mkOrderResponse order_id total).

Definition owned_by (uid : string) (o : Doc Bson.ObjectId Order.t) : bool :=
  match Order.user_id (fields o) with
  | Some v => String.eqb v uid
  | None => false
  end.

Definition list_orders (authorization : option string)
  : M (list (Doc string Order.t)) :=
  token <- bearer_token authorization ;;
  user <- user_from_token token ;;
  match user with
  | None => raise (HTTPException 401 "Unauthorized")
  | Some user =>
      let query :=
        if negb (User.is_admin (fields user))
        then owned_by (_id user)
        else fun _ => true in
      found <- Mongo.find Db.order query ;;
      let orders := Mongo.sort_created_at_desc found in
      ret (map str_id orders)
  end.

(** *** Startup *)

(** [db[c].count_documents({})]. *)
Definition count_documents {A} (c : Collection A) : M Z :=
  fun _ s => (Ok (Z.of_nat (List.length (docs c s))), s).

(** [m] run with the environment [e]: each insertion of a loop gets its
    own [_id] and its own reading of the clock. *)
Definition in_env {A} (e : Env) (m : M A) : M A := fun _ s => m e s.

(** One entry of [samples]: a dict naming all six fields. *)
Definition sample (title description : string) (price : Py.float)
           (category image : string) : list ProductPayload.item :=
  [ProductPayload.Title title;
   ProductPayload.Description (Some description);
   ProductPayload.Price price;
   ProductPayload.Category category;
   ProductPayload.Image (Some image);
   ProductPayload.In_stock true].

(** The float nearest to the decimal [n / d], as a float literal denotes. *)
Definition decimal (n d : Z) : Py.float :=
  SFdiv Py.prec Py.emax (binary_normalize Py.prec Py.emax n 0 false)
        (binary_normalize Py.prec Py.emax d 0 false).

Definition samples : list (list ProductPayload.item) :=
  [sample "Aurora Card Wallet" "Slim RFID wallet with glassmorphic sheen."
          (decimal 2999 100) "accessories"
          "https://images.unsplash.com/photo-1592417817030-2f1b1c86a8e7?q=80&w=1200&auto=format&fit=crop";
   sample "Nebula Headphones" "Wireless noise-cancelling over-ears."
          (decimal 129 1) "audio"
          "https://images.unsplash.com/photo-1518445145672-c8cfc6a2d6b1?q=80&w=1200&auto=format&fit=crop";
   sample "Lumos Desk Lamp" "Minimal, touch dimmer, USB-C powered."
          (decimal 495 10) "home"
          "https://images.unsplash.com/photo-1555041469-a586c61ea9bc?q=80&w=1200&auto=format&fit=crop";
   sample "Flux Water Bottle" "Insulated steel, matte gradient."
          (decimal 24 1) "outdoors"
          "https://images.unsplash.com/photo-1541506610-6913f8f24e5d?q=80&w=1200&auto=format&fit=crop"].

(** [for s in samples: create_document("product", Product(...))], the
    [i]-th insertion in the environment [envs i]. *)
Fixpoint seed_loop (envs : nat -> Env) (i : nat)
         (todo : list (list ProductPayload.item)) : M unit :=
  match todo with
  | [] => ret tt
  | s :: rest =>
      _ <- in_env (envs i)
             (product <- Product_new s ;; create_document Db.product product) ;;
      seed_loop envs (S i) rest
  end.

(** [seed_products], with the database connected. *)
Definition seed_products (envs : nat -> Env) : M unit :=
  count <- count_documents Db.product ;;
  if count =? 0 then seed_loop envs 0 samples else ret tt.

(* ===================================================================== *)
(** ** Vocabulary of the statements *)

(** The identity a handler resolves from its [Authorization] header. *)
Definition resolve (authorization : option string) : M (option (Doc string User.t)) :=
  token <- bearer_token authorization ;;
  user_from_token token.

(** MongoDB keeps [_id] unique within a collection. *)
Definition ids_unique (s : Store) : Prop := NoDup (map _id (user_docs s)).

Definition holds_token (t : string) (u : Doc Bson.ObjectId User.t) : Prop :=
  User.token (fields u) = Some t.

(** No token is the current token of two user records. *)
Definition tokens_unique (s : Store) : Prop :=
  forall t u v, In u (user_docs s) -> In v (user_docs s) ->
                holds_token t u -> holds_token t v -> u = v.

(** The token a login issues in environment [env]. *)
Definition login_token (env : Env) : string :=
  Py.token_hex (map (urandom env) (seq 0 16)).

Definition email_is (e : string) (u : Doc Bson.ObjectId User.t) : bool :=
  String.eqb (User.email (fields u)) e.

(** At most one user record per email address. *)
Definition emails_unique (s : Store) : Prop :=
  forall u v, In u (user_docs s) -> In v (user_docs s) ->
              User.email (fields u) = User.email (fields v) -> u = v.

(** A token no user record holds. *)
Definition fresh_token (t : string) (s : Store) : Prop :=
  forall u, In u (user_docs s) -> ~ holds_token t u.

(** What an admin-only handler owes a caller whose identity is [user]:
    a caller who is not an admin gets 403 and the store is left as it
    was; an admin never gets 403; nobody gets 401. *)
Definition admin_gated {A} (user : option (Doc string User.t)) (s : Store)
           (out : Result A * Store) : Prop :=
  (is_admin_user user = false ->
   out = (Raise (HTTPException 403 "Admin only"), s)) /\
  (is_admin_user user = true -> status (fst out) <> 403) /\
  status (fst out) <> 401.

(** The float of an integer literal such as [10] or [30]. *)
Definition float_lit (n : Z) : Py.float :=
  binary_normalize Py.prec Py.emax n 0 false.


(** Every quantity of the cart fits the eight bytes of a BSON integer. *)
Definition quantities_fit (items : list OrderItem.t) : bool :=
  forallb (fun i => Bson.int64 (OrderItem.quantity i)) items.

(** The document a checkout inserts. *)
Definition order_doc (payload : CheckoutPayload.t) (user : option (Doc string User.t))
           (total : Py.float) (env : Env) : Doc Bson.ObjectId Order.t :=
  mkDoc (inserted_id env)
        (Order.mk (option_map _id user)
                  (CheckoutPayload.name payload)
                  (CheckoutPayload.address payload)
                  (CheckoutPayload.payment_method payload)
                  (CheckoutPayload.items payload)
                  total "pending")
        (utcnow env) (utcnow env).

(** *** Substring search, in the spec's words *)

Fixpoint lowercase (s : string) : string :=
  match s with
  | EmptyString => EmptyString
  | String c r => String (Regex.lower c) (lowercase r)
  end.

(** [needle] is a prefix of [hay], letter case ignored. *)
Fixpoint iprefix (needle hay : string) : bool :=
  match needle, hay with
  | EmptyString, _ => true
  | String a n, String b h => Ascii.eqb (Regex.lower a) (Regex.lower b) && iprefix n h
  | String _ _, EmptyString => false
  end.

(** [hay] contains [needle] as a case-insensitive substring. *)
Fixpoint icontains (needle hay : string) : bool :=
  iprefix needle hay ||
  match hay with
  | EmptyString => false
  | String _ h => icontains needle h
  end.

(** The products a substring search for [needle] should return. *)
Definition title_or_category_contains (needle : string)
           (p : Doc Bson.ObjectId Product.t) : bool :=
  icontains needle (Product.title (fields p))
  || icontains needle (Product.category (fields p)).

(** A search string PCRE reads literally: ASCII, no metacharacter. *)
Fixpoint literal (pattern : string) : bool :=
  match pattern with
  | EmptyString => true
  | String c r =>
      negb (Regex.mem c Regex.metachars) && (N_of_ascii c <? 128)%N && literal r
  end.

(** Lower-case hexadecimal digits. *)
Definition is_hexdigit (c : ascii) : bool := Regex.mem c "0123456789abcdef".

(** What a product should hold after an update with body [b]: the six
    fields of the body, those left out at null, null and true. *)
Definition product_of_body (b : ProductPayload.body) : Product.t :=
  Product.mk (ProductPayload.b_title b)
             (ProductPayload.b_description b)
             (ProductPayload.b_price b)
             (ProductPayload.b_category b)
             (ProductPayload.b_image b)
             (match ProductPayload.b_in_stock b with Some v => v | None => true end).

Definition newest_first {I A} (l : list (Doc I A)) : Prop :=
  StronglySorted (fun a b => created_at b <= created_at a) l.

(** *** Further vocabulary *)

(** The [_id]s of the user records with is_admin set. *)
Definition admin_ids (s : Store) : list Bson.ObjectId :=
  map _id (filter (fun u => User.is_admin (fields u)) (user_docs s)).

(** The store as signup and login keep it: [_id]s, email addresses and
    tokens each belong to one user record. *)
Definition store_ok (s : Store) : Prop :=
  ids_unique s /\ emails_unique s /\ tokens_unique s.

Definition product_ids_unique (s : Store) : Prop :=
  NoDup (map _id (product_docs s)).

(** A request that fails leaves the store as it found it. *)
Definition atomic {A} (m : M A) : Prop :=
  forall env s e, fst (m env s) = Raise e -> snd (m env s) = s.

(** A request that never writes. *)
Definition read_only {A} (m : M A) : Prop :=
  forall env s, snd (m env s) = s.

(** A request that makes nobody an admin and no admin a plain user. *)
Definition keeps_admins {A} (m : M A) : Prop :=
  forall env s, admin_ids (snd (m env s)) = admin_ids s.

(** Which collections a request may write to. *)
Definition keeps_users {A} (m : M A) : Prop :=
  forall env s, user_docs (snd (m env s)) = user_docs s.
Definition keeps_products {A} (m : M A) : Prop :=
  forall env s, product_docs (snd (m env s)) = product_docs s.
Definition keeps_orders {A} (m : M A) : Prop :=
  forall env s, order_docs (snd (m env s)) = order_docs s.

(** [x >= 0] on floats: false for negative numbers and for NaN. *)
Definition nonneg (x : Py.float) : bool := Py.fleb Py.fzero x.

(** A price that is a number, finite and not negative. *)
Definition ordinary_price (x : Py.float) : bool :=
  match x with
  | S754_zero _ | S754_finite false _ _ => true
  | _ => false
  end.

(** A text of ASCII characters only. *)
Fixpoint ascii_text (s : string) : bool :=
  match s with
  | EmptyString => true
  | String c r => (N_of_ascii c <? 128)%N && ascii_text r
  end.

(** [hay] contains [needle], letter case ignored on both sides. *)
Definition substring_ci (needle hay : string) : Prop :=
  exists pre post, lowercase hay = (pre ++ lowercase needle ++ post)%string.

(** The product fields a ProductPayload carries. *)
Definition product_of_payload (p : ProductPayload.t) : Product.t :=
  Product.mk (ProductPayload.title p) (ProductPayload.description p)
             (ProductPayload.price p) (ProductPayload.category p)
             (ProductPayload.image p) (ProductPayload.in_stock p).

Definition new_product (payload : ProductPayload.t) (env : Env)
  : Doc Bson.ObjectId Product.t :=
  mkDoc (inserted_id env) (product_of_payload payload) (utcnow env) (utcnow env).

(** The products the startup loop inserts for [todo], from the [i]-th
    environment on. *)
Fixpoint seeded (envs : nat -> Env) (i : nat)
         (todo : list (list ProductPayload.item)) : list (Doc Bson.ObjectId Product.t) :=
  match todo with
  | [] => []
  | s :: rest =>
      mkDoc (inserted_id (envs i))
            (set_items s (Product.mk "" None Py.fzero "" None true))
            (utcnow (envs i)) (utcnow (envs i))
      :: seeded envs (S i) rest
  end.

(* ===================================================================== *)
(** ** A small store for concrete runs *)

Module Sample.

Definition oid (n : byte) : Bson.ObjectId := repeat x00 11 ++ [n].

Definition digest_pw1 : string := Eval vm_compute in hash_password "pw1".
Definition digest_pw2 : string := Eval vm_compute in hash_password "pw2".

Definition ann_token : string := Eval vm_compute in Py.hexlify (repeat xa7 16).
Definition root_token : string := Eval vm_compute in Py.hexlify (repeat x3c 16).

Definition ann : Doc Bson.ObjectId User.t :=
  mkDoc (oid x01)
        (User.mk "Ann" "ann@x.com" digest_pw1 None false (Some ann_token)) 10 10.

Definition root : Doc Bson.ObjectId User.t :=
  mkDoc (oid x02)
        (User.mk "Root" "root@x.com" digest_pw2 None true (Some root_token)) 11 11.

(** Two of the products [seed_products] inserts. *)
Definition wallet : Doc Bson.ObjectId Product.t :=
  mkDoc (oid x03)
        (Product.mk "Aurora Card Wallet"
                    (Some "Slim RFID wallet with glassmorphic sheen.")
                    (SFdiv Py.prec Py.emax (float_lit 2999) (float_lit 100))
                    "accessories" None true) 12 12.

Definition lamp : Doc Bson.ObjectId Product.t :=
  mkDoc (oid x04)
        (Product.mk "Lumos Desk Lamp"
                    (Some "Minimal, touch dimmer, USB-C powered.")
                    (SFdiv Py.prec Py.emax (float_lit 495) (float_lit 10))
                    "home" None true) 13 13.

Definition item (price quantity : Z) : OrderItem.t :=
  OrderItem.mk (Bson.str (oid x04)) "Lumos Desk Lamp" (float_lit price) quantity None.

Definition order_of (id : byte) (owner : option string) (at_ : Z)
  : Doc Bson.ObjectId Order.t :=
  mkDoc (oid id)
        (Order.mk owner "Ann" "1 Main St" "card" [item 10 1] (float_lit 10) "pending")
        at_ at_.

Definition ann_id : string := Eval vm_compute in Bson.str (oid x01).

Definition store : Store :=
  mkStore [ann; root] [wallet; lamp]
          [order_of x05 (Some ann_id) 20; order_of x06 None 30;
           order_of x07 (Some ann_id) 40].

Definition env : Env :=
  mkEnv (oid x09) 50 (fun n => Sha256.byte_of_Z (37 * Z.of_nat n + 11)).

Definition ann_login : LoginPayload.t := LoginPayload.mk "ann@x.com" "pw1".

(** A later request: other random bytes, a later clock. *)
Definition env2 : Env :=
  mkEnv (oid x0a) 60 (fun n => Sha256.byte_of_Z (101 * Z.of_nat n + 7)).

(** The spec's scenario, from an empty store: Ann signs up, logs in,
    logs in again. *)
Definition s1 : Store :=
  snd (signup (SignupPayload.mk "Ann" "ann@x.com" "pw1") env (mkStore [] [] [])).
Definition s2 : Store := snd (login ann_login env s1).
Definition s3 : Store := snd (login ann_login env2 s2).

(** items=[{price:10,quantity:3}]. *)
Definition checkout : CheckoutPayload.t :=
  CheckoutPayload.mk "Guest" "2 Side St" "card" [item 10 3].




(** An item with a negative price. *)
Definition refund : CheckoutPayload.t :=
  CheckoutPayload.mk "Guest" "2 Side St" "card" [item (-5) 2].

(** A product body with only the required fields. *)
Definition bare_body : ProductPayload.body :=
  ProductPayload.mkBody "Wallet" None (float_lit 5) "misc" None None.

(** Further requests. *)
Definition bob_signup : SignupPayload.t := SignupPayload.mk "Bob" "bob@x.com" "pw3".

Definition root_header : option string := Some ("Bearer " ++ root_token)%string.
Definition ann_header : option string := Some ("Bearer " ++ ann_token)%string.

Definition mug : ProductPayload.t :=
  ProductPayload.mk "Mug" None (float_lit 8) "home" None true.

(** A payload creation refuses and update writes. *)
Definition minus_one : ProductPayload.t :=
  ProductPayload.mk "Mug" None (float_lit (-1)) "home" None true.

Definition wallet_id : string := Eval vm_compute in Bson.str (oid x03).

Definition nan_cart : CheckoutPayload.t :=
  CheckoutPayload.mk "Guest" "2 Side St" "card"
    [item 10 1; OrderItem.mk wallet_id "Aurora Card Wallet" S754_nan 1 None].

Definition huge_cart : CheckoutPayload.t :=
  CheckoutPayload.mk "Guest" "2 Side St" "card" [item 10 1; item 10 (2 ^ 1024)].

End Sample.

(* ===================================================================== *)
(** ** Test vectors and small runs *)

Example sha256_abc : hash_password "abc" =
  "ba7816bf8f01cfea414140de5dae2223b00361a396177a9cb410ff61f20015ad".
Proof. vm_compute. reflexivity. Qed.

Example sha256_empty : hash_password "" =
  "e3b0c44298fc1c149afbf4c8996fb92427ae41e4649b934ca495991b7852b855".
Proof. vm_compute. reflexivity. Qed.

Example split1_bearer :
  Py.split1 " " "Bearer abc def" = ["Bearer"; "abc def"].
Proof. reflexivity. Qed.

(* ===================================================================== *)
(** ** The authenticator *)

Lemma prefix_app p : forall s,
  String.prefix p s = true -> exists t, s = (p ++ t)%string.
Proof.
  induction p as [|c p IH]; intros s H.
  - now exists s.
  - destruct s as [|d s]; cbn [String.prefix] in H; [discriminate|].
    destruct (Ascii.ascii_dec c d) as [<-|]; [|discriminate].
    destruct (IH s H) as [t ->]. now exists t.
Qed.

Lemma startswith_bearer a :
  Py.startswith a "Bearer " = true -> exists t, a = ("Bearer " ++ t)%string.
Proof. apply prefix_app. Qed.

Lemma startswith_bearer_app t : Py.startswith ("Bearer " ++ t)%string "Bearer " = true.
Proof. unfold Py.startswith. cbn. now destruct t. Qed.

Lemma bearer_token_bearer t env s :
  bearer_token (Some ("Bearer " ++ t)%string) env s = (Ok (Some t), s).
Proof. unfold bearer_token. rewrite startswith_bearer_app. reflexivity. Qed.

Lemma bearer_token_other a env s :
  Py.startswith a "Bearer " = false ->
  bearer_token (Some a) env s = (Ok None, s).
Proof.
  intros H. unfold bearer_token. rewrite H, andb_false_r. reflexivity.
Qed.

(** Reading the header never raises and never touches the store. *)
Lemma bearer_token_returns a env s :
  exists t, bearer_token a env s = (Ok t, s).
Proof.
  destruct a as [a|]; [|now exists None].
  destruct (Py.startswith a "Bearer ") eqn:E.
  - destruct (startswith_bearer a E) as [t ->].
    exists (Some t). apply bearer_token_bearer.
  - exists None. now apply bearer_token_other.
Qed.

Lemma user_from_token_eq token env s :
  user_from_token token env s =
  (Ok (match token with
       | None => None
       | Some t => if Py.truthy t
                   then option_map str_id (find (token_is t) (user_docs s))
                   else None
       end), s).
Proof.
  destruct token as [t|]; [|reflexivity].
  unfold user_from_token. destruct (Py.truthy t); reflexivity.
Qed.

Lemma resolve_returns authorization env s :
  exists user, resolve authorization env s = (Ok user, s).
Proof.
  unfold resolve, bind.
  destruct (bearer_token_returns authorization env s) as [t ->].
  rewrite user_from_token_eq. eauto.
Qed.

Lemma token_is_holds t u : token_is t u = true <-> holds_token t u.
Proof.
  unfold token_is, holds_token. destruct (User.token (fields u)) as [t'|].
  - rewrite String.eqb_eq. split; congruence.
  - split; discriminate.
Qed.

Lemma find_none_iff {A} (f : A -> bool) l :
  find f l = None <-> forall x, In x l -> f x = false.
Proof.
  split.
  - apply find_none.
  - induction l as [|a l IH]; simpl; intros H; [reflexivity|].
    rewrite (H a (or_introl eq_refl)). apply IH. intros x Hx. apply H. now right.
Qed.

Lemma find_some_ex {A} (f : A -> bool) l x :
  In x l -> f x = true -> exists y, find f l = Some y.
Proof.
  intros Hin Hf. destruct (find f l) as [y|] eqn:E; [eauto|].
  rewrite (find_none f l E x Hin) in Hf. discriminate.
Qed.

(** Under a handler, the two authentication steps amount to [resolve]. *)
Lemma resolved_then {A} (k : option (Doc string User.t) -> M A)
      authorization env s user :
  resolve authorization env s = (Ok user, s) ->
  (token <- bearer_token authorization ;;
   user <- user_from_token token ;;
   k user) env s = k user env s.
Proof.
  unfold resolve, bind.
  destruct (bearer_token_returns authorization env s) as [t ->].
  rewrite user_from_token_eq. intros [= <-]. reflexivity.
Qed.

(** C3. Resolving the bearer token of a request never raises: with no
    Authorization header, a header that does not start with "Bearer ",
    an empty token or a token no user record holds, the identity is
    None; a token some record holds resolves to a record holding it
    (the record, when tokens are unique), with its [_id] as a string. *)
Theorem C3_token_resolution_never_raises :
  forall authorization env s,
  exists user,
    resolve authorization env s = (Ok user, s)
    /\ (authorization = None -> user = None)
    /\ (forall a, authorization = Some a ->
                  Py.startswith a "Bearer " = false -> user = None)
    /\ (authorization = Some "Bearer " -> user = None)
    /\ (forall t, authorization = Some ("Bearer " ++ t)%string ->
                  fresh_token t s -> user = None)
    /\ (forall t u, authorization = Some ("Bearer " ++ t)%string ->
                    t <> "" -> In u (user_docs s) -> holds_token t u ->
                    exists v, In v (user_docs s) /\ holds_token t v
                              /\ user = Some (str_id v)
                              /\ (tokens_unique s -> v = u)).
Proof.
  intros authorization env s.
  destruct (resolve_returns authorization env s) as [user Hr].
  exists user. split; [exact Hr|].
  unfold resolve, bind in Hr.
  repeat split.
  - intros ->. cbv [bearer_token ret] in Hr.
    rewrite user_from_token_eq in Hr. congruence.
  - intros a -> Hs. rewrite (bearer_token_other a env s Hs) in Hr.
    rewrite user_from_token_eq in Hr. congruence.
  - intros ->. pose proof (bearer_token_bearer "" env s) as Hb.
    cbn [String.append] in Hb. rewrite Hb, user_from_token_eq in Hr.
    cbn in Hr. congruence.
  - intros t -> Hfresh. rewrite bearer_token_bearer, user_from_token_eq in Hr.
    injection Hr as <-. destruct (Py.truthy t); [|reflexivity].
    replace (find (token_is t) (user_docs s)) with (@None (Doc Bson.ObjectId User.t));
      [reflexivity|].
    symmetry. apply find_none_iff. intros x Hx.
    destruct (token_is t x) eqn:E; [|reflexivity].
    apply token_is_holds in E. now destruct (Hfresh x Hx).
  - intros t u -> Ht Hin Hu.
    rewrite bearer_token_bearer, user_from_token_eq in Hr.
    injection Hr as <-.
    destruct t as [|c t]; [congruence|]. cbn [Py.truthy].
    destruct (find_some_ex (token_is (String c t)) _ u Hin) as [v Hv].
    { now apply token_is_holds. }
    rewrite Hv. destruct (find_some _ _ Hv) as [Hvin Hvt].
    apply token_is_holds in Hvt.
    exists v. repeat split; auto.
    intros Huniq. exact (Huniq _ v u Hvin Hin Hvt Hu).
Qed.

(* ===================================================================== *)
(** ** Admin-only routes *)

Ltac run_handler :=
  repeat (cbv beta iota zeta delta [bind ret raise Product_new Order_new
                                 create_document Mongo.insert_one
                                 Mongo.update_one Mongo.delete_one
                                 Mongo.find Mongo.find_one];
          match goal with
          | |- context [Product.valid ?p] => destruct (Product.valid p)
          | |- context [Order.valid ?p] => destruct (Order.valid p)
          | |- context [Bson.ObjectId_of_str ?p] => destruct (Bson.ObjectId_of_str p)
          | |- context [Mongo.update_first ?q ?f ?l] =>
              destruct (Mongo.update_first q f l)
          | |- context [Mongo.delete_first ?q ?l] =>
              destruct (Mongo.delete_first q l)
          | |- context [?n =? 0] => destruct (n =? 0)
          end).

Ltac gate_cases Hr :=
  erewrite resolved_then by exact Hr;
  unfold admin_gated;
  match goal with
  | |- context [is_admin_user ?u] => destruct (is_admin_user u)
  end;
  cbn [negb];
  (split; [|split]); try (intros; reflexivity); try discriminate;
  intros; run_handler; cbn; discriminate.

Lemma create_product_gated payload authorization env s user :
  resolve authorization env s = (Ok user, s) ->
  admin_gated user s (create_product payload authorization env s).
Proof. intros Hr. unfold create_product. gate_cases Hr. Qed.

Lemma update_product_gated product_id payload authorization env s user :
  resolve authorization env s = (Ok user, s) ->
  admin_gated user s (update_product product_id payload authorization env s).
Proof. intros Hr. unfold update_product. gate_cases Hr. Qed.

Lemma delete_product_gated product_id authorization env s user :
  resolve authorization env s = (Ok user, s) ->
  admin_gated user s (delete_product product_id authorization env s).
Proof. intros Hr. unfold delete_product. gate_cases Hr. Qed.

(** C1. On the admin-only routes (product create, update, delete) the
    operation is allowed exactly when the resolved identity exists and
    has is_admin true.  An anonymous caller and a non-admin caller both
    get 403, whatever the product id and the payload, with the store
    untouched; an admin never gets 403; and no caller gets 401. *)
Theorem C1_admin_only_routes :
  forall product_id payload authorization env s,
  exists user,
    resolve authorization env s = (Ok user, s)
    /\ (is_admin_user user = true <->
        exists u, user = Some u /\ User.is_admin (fields u) = true)
    /\ admin_gated user s (create_product payload authorization env s)
    /\ admin_gated user s (update_product product_id payload authorization env s)
    /\ admin_gated user s (delete_product product_id authorization env s).
Proof.
  intros product_id payload authorization env s.
  destruct (resolve_returns authorization env s) as [user Hr].
  exists user. split; [exact Hr|]. split; [|split; [|split]].
  - destruct user as [u|]; cbn.
    + split; [eauto|]. now intros (v & [= <-] & Hv).
    + split; [discriminate|]. now intros (v & [=] & _).
  - now apply create_product_gated.
  - now apply update_product_gated.
  - now apply delete_product_gated.
Qed.

(* ===================================================================== *)
(** ** Bytes, hexadecimal text and ObjectIds *)

Lemma hex_of_byte_inv b :
  Py.hexval (Py.hexdigit (Byte.to_N b / 16)) = Some (Byte.to_N b / 16)%N /\
  Py.hexval (Py.hexdigit (Byte.to_N b mod 16)) = Some (Byte.to_N b mod 16)%N /\
  Byte.of_N (16 * (Byte.to_N b / 16) + Byte.to_N b mod 16) = Some b.
Proof. destruct b; vm_compute; auto. Qed.

(** Decoding undoes encoding, so distinct byte strings have distinct
    hexadecimal texts. *)
Lemma unhexlify_hexlify bs : Py.unhexlify (Py.hexlify bs) = Some bs.
Proof.
  induction bs as [|b bs IH]; [reflexivity|].
  destruct (hex_of_byte_inv b) as (Hh & Hl & Hb).
  cbn [Py.hexlify fold_right Py.hex_of_byte Py.unhexlify].
  fold (Py.hexlify bs). rewrite Hh, Hl, IH, Hb. reflexivity.
Qed.

Lemma hexlify_inj a b : Py.hexlify a = Py.hexlify b -> a = b.
Proof.
  intros H. apply (f_equal Py.unhexlify) in H.
  rewrite !unhexlify_hexlify in H. congruence.
Qed.

Lemma hexlify_length bs :
  String.length (Py.hexlify bs) = (2 * List.length bs)%nat.
Proof.
  induction bs as [|b bs IH]; [reflexivity|].
  cbn [Py.hexlify fold_right Py.hex_of_byte String.length List.length].
  fold (Py.hexlify bs). rewrite IH. lia.
Qed.

Lemma bytes_eqb_eq a b : Py.bytes_eqb a b = true <-> a = b.
Proof.
  unfold Py.bytes_eqb. rewrite String.eqb_eq. split; [|congruence].
  intros H. apply (f_equal list_byte_of_string) in H.
  now rewrite !list_byte_of_string_of_list_byte in H.
Qed.

Lemma bytes_eqb_refl a : Py.bytes_eqb a a = true.
Proof. now apply bytes_eqb_eq. Qed.

(* ===================================================================== *)
(** ** update_one and delete_one *)

Section FirstMatch.
Context {A : Type}.
Implicit Types (l : list (Doc Bson.ObjectId A)) (q : Doc Bson.ObjectId A -> bool).

Lemma update_first_spec q f l :
  (find q l = None /\ Mongo.update_first q f l = (l, 0)) \/
  (exists l1 d l2,
      l = l1 ++ d :: l2 /\ find q l = Some d /\
      (forall x, In x l1 -> q x = false) /\ q d = true /\
      Mongo.update_first q f l = (l1 ++ Mongo.touched f d :: l2, 1)).
Proof.
  induction l as [|x l IH]; [now left|].
  cbn [Mongo.update_first find]. destruct (q x) eqn:Hx.
  - right. exists [], x, l. repeat split; auto. intros ? [].
  - destruct IH as [[Hn ->]|(l1 & d & l2 & -> & Hf & Hl1 & Hd & ->)].
    + now left.
    + right. exists (x :: l1), d, l2. repeat split; auto.
      intros y [<-|Hy]; auto.
Qed.

Lemma delete_first_spec q l :
  (find q l = None /\ Mongo.delete_first q l = (l, 0)) \/
  (exists l1 d l2,
      l = l1 ++ d :: l2 /\ find q l = Some d /\
      (forall x, In x l1 -> q x = false) /\ q d = true /\
      Mongo.delete_first q l = (l1 ++ l2, 1)).
Proof.
  induction l as [|x l IH]; [now left|].
  cbn [Mongo.delete_first find]. destruct (q x) eqn:Hx.
  - right. exists [], x, l. repeat split; auto. intros ? [].
  - destruct IH as [[Hn ->]|(l1 & d & l2 & -> & Hf & Hl1 & Hd & ->)].
    + now left.
    + right. exists (x :: l1), d, l2. repeat split; auto.
      intros y [<-|Hy]; auto.
Qed.

(** With unique [_id]s, two documents of a collection that share an
    [_id] are the same document. *)
Lemma same_id_same_doc l (d e : Doc Bson.ObjectId A) :
  NoDup (map _id l) -> In d l -> In e l -> _id d = _id e -> d = e.
Proof.
  induction l as [|x l IH]; [intros _ []|].
  cbn [map]. intros Hnd [<-|Hd] [<-|He] Hid; auto.
  - inversion_clear Hnd as [|? ? Hnot _]. destruct Hnot.
    rewrite Hid. now apply in_map.
  - inversion_clear Hnd as [|? ? Hnot _]. destruct Hnot.
    rewrite <- Hid. now apply in_map.
  - inversion_clear Hnd. auto.
Qed.
End FirstMatch.

(* ===================================================================== *)
(** ** Login *)

Lemma login_eq payload env s :
  login payload env s =
  match find (email_is (LoginPayload.email payload)) (user_docs s) with
  | None => (Raise (HTTPException 401 "Invalid credentials"), s)
  | Some u =>
      if String.eqb (User.password_hash (fields u))
                    (hash_password (LoginPayload.password payload))
      then (Ok (mkLoginResponse (login_token env) (User.name (fields u))
                                (User.is_admin (fields u))),
            mkStore (fst (Mongo.update_first
                            (fun d => Bson.eqb (_id d) (_id u))
                            (set_token (login_token env)) (user_docs s)))
                    (product_docs s) (order_docs s))
      else (Raise (HTTPException 401 "Invalid credentials"), s)
  end.
Proof.
  unfold login, bind, Mongo.find_one, Mongo.update_one, token_hex, ret, raise.
  cbn [docs with_docs Db.user]. fold (email_is (LoginPayload.email payload)).
  destruct (find _ (user_docs s)) as [u|]; [|reflexivity].
  destruct (String.eqb _ _); cbn [negb]; [|reflexivity].
  fold (login_token env).
  destruct (Mongo.update_first _ _ _). reflexivity.
Qed.

(** The record a successful login writes to: with unique [_id]s it is
    the record found by email, which now holds the new token. *)
Lemma login_update u f (l : list (Doc Bson.ObjectId User.t)) :
  NoDup (map _id l) -> In u l ->
  exists l1 l2,
    l = l1 ++ u :: l2 /\
    fst (Mongo.update_first (fun d => Bson.eqb (_id d) (_id u)) f l)
    = l1 ++ Mongo.touched f u :: l2.
Proof.
  intros Hnd Hin.
  destruct (update_first_spec (fun d => Bson.eqb (_id d) (_id u)) f l)
    as [[Hn _]|(l1 & d & l2 & Hl & Hf & _ & Hd & ->)].
  - exfalso. pose proof (find_none _ _ Hn u Hin) as H. cbn in H.
    unfold Bson.eqb in H. now rewrite bytes_eqb_refl in H.
  - apply bytes_eqb_eq in Hd.
    assert (d = u) as ->.
    { apply (same_id_same_doc l); auto. rewrite Hl. apply in_elt. }
    now exists l1, l2.
Qed.

Lemma email_is_eq e u : email_is e u = true <-> User.email (fields u) = e.
Proof. unfold email_is. apply String.eqb_eq. Qed.


Lemma touched_ids {A} (f : A -> A) l1 (u : Doc Bson.ObjectId A) l2 :
  map _id (l1 ++ Mongo.touched f u :: l2) = map _id (l1 ++ u :: l2).
Proof. now rewrite !map_app. Qed.




(** A login keeps the [_id]s, and keeps tokens unique as long as the
    token it issues is new. *)
Lemma login_store payload env s :
  ids_unique s ->
  snd (login payload env s) = s \/
  exists l1 u l2,
    user_docs s = l1 ++ u :: l2 /\
    snd (login payload env s)
    = mkStore (l1 ++ Mongo.touched (set_token (login_token env)) u :: l2)
              (product_docs s) (order_docs s).
Proof.
  intros Hids. rewrite login_eq.
  destruct (find _ _) as [u|] eqn:Hf; [|now left].
  destruct (String.eqb _ _); [|now left].
  destruct (find_some _ _ Hf) as [Hin _].
  destruct (login_update u (set_token (login_token env)) _ Hids Hin)
    as (l1 & l2 & Hl & E).
  right. exists l1, u, l2. cbn [snd]. now rewrite E.
Qed.

Lemma login_preserves_ids_unique payload env s :
  ids_unique s -> ids_unique (snd (login payload env s)).
Proof.
  intros Hids. destruct (login_store payload env s Hids)
    as [->|(l1 & u & l2 & Hl & ->)]; [exact Hids|].
  unfold ids_unique in *. cbn [user_docs]. now rewrite touched_ids, <- Hl.
Qed.

Lemma login_preserves_tokens_unique payload env s :
  ids_unique s -> tokens_unique s -> fresh_token (login_token env) s ->
  tokens_unique (snd (login payload env s)).
Proof.
  intros Hids Huniq Hfresh. destruct (login_store payload env s Hids)
    as [->|(l1 & u & l2 & Hl & ->)]; [exact Huniq|].
  assert (Hold : forall x, In x (l1 ++ l2) -> In x (user_docs s)).
  { intros x Hx. rewrite Hl. apply in_app_or in Hx. apply in_or_app.
    destruct Hx; [now left|right; now right]. }
  assert (Hsplit : forall x,
             In x (l1 ++ Mongo.touched (set_token (login_token env)) u :: l2) ->
             x = Mongo.touched (set_token (login_token env)) u \/ In x (l1 ++ l2)).
  { intros x Hx. apply in_app_or in Hx. destruct Hx as [Hx|[<-|Hx]].
    - right. apply in_or_app. now left.
    - now left.
    - right. apply in_or_app. now right. }
  intros t a b Ha Hb Hta Htb. cbn [user_docs] in Ha, Hb.
  destruct (Hsplit a Ha) as [->|Ha']; destruct (Hsplit b Hb) as [->|Hb'].
  - reflexivity.
  - exfalso. unfold holds_token in Hta. cbn in Hta. injection Hta as <-.
    exact (Hfresh b (Hold b Hb') Htb).
  - exfalso. unfold holds_token in Htb. cbn in Htb. injection Htb as <-.
    exact (Hfresh a (Hold a Ha') Hta).
  - exact (Huniq t a b (Hold a Ha') (Hold b Hb') Hta Htb).
Qed.

(* ===================================================================== *)
(** ** Signup *)

Lemma signup_eq payload env s :
  signup payload env s =
  match find (email_is (SignupPayload.email payload)) (user_docs s) with
  | Some _ => (Raise (HTTPException 400 "Email already registered"), s)
  | None =>
      (Ok (mkSignupResponse "Signup successful" (Bson.str (inserted_id env))),
       mkStore (user_docs s ++
                  [mkDoc (inserted_id env)
                         (User.mk (SignupPayload.name payload)
                                  (SignupPayload.email payload)
                                  (hash_password (SignupPayload.password payload))
                                  None false None)
                         (utcnow env) (utcnow env)])
               (product_docs s) (order_docs s))
  end.
Proof.
  unfold signup, bind, Mongo.find_one, create_document, Mongo.insert_one, ret, raise.
  cbn [docs with_docs Db.user]. fold (email_is (SignupPayload.email payload)).
  destruct (find _ (user_docs s)); reflexivity.
Qed.

(** C6. A signup whose email is already in the user store is rejected
    with status 400, "Email already registered", and the store is left
    unchanged.  Otherwise one user record is added, with is_admin false,
    no token, no address, and the hash of the submitted password as its
    digest. *)
Theorem C6_signup_rejects_duplicate_email :
  forall payload env s,
    let out := signup payload env s in
    ((exists u, In u (user_docs s)
                /\ User.email (fields u) = SignupPayload.email payload) ->
     out = (Raise (HTTPException 400 "Email already registered"), s)
     /\ status (fst out) = 400)
    /\ ((forall u, In u (user_docs s) ->
                   User.email (fields u) <> SignupPayload.email payload) ->
        exists doc,
          out = (Ok (mkSignupResponse "Signup successful" (Bson.str (_id doc))),
                 mkStore (user_docs s ++ [doc]) (product_docs s) (order_docs s))
          /\ User.is_admin (fields doc) = false
          /\ User.token (fields doc) = None
          /\ User.password_hash (fields doc)
             = hash_password (SignupPayload.password payload)
          /\ User.email (fields doc) = SignupPayload.email payload
          /\ User.name (fields doc) = SignupPayload.name payload).
Proof.
  intros payload env s out. subst out. rewrite signup_eq. split.
  - intros (u & Hin & He).
    destruct (find_some_ex (email_is (SignupPayload.email payload)) _ u Hin)
      as [v ->]; [now apply email_is_eq|]. now split.
  - intros Hno.
    replace (find (email_is (SignupPayload.email payload)) (user_docs s))
      with (@None (Doc Bson.ObjectId User.t)).
    + exists (mkDoc (inserted_id env)
                    (User.mk (SignupPayload.name payload)
                             (SignupPayload.email payload)
                             (hash_password (SignupPayload.password payload))
                             None false None)
                    (utcnow env) (utcnow env)).
      repeat split.
    + symmetry. apply find_none_iff. intros x Hx.
      destruct (email_is _ x) eqn:E; [|reflexivity].
      apply email_is_eq in E. now destruct (Hno x Hx).
Qed.

(** Signup keeps email addresses unique. *)
Lemma signup_preserves_emails_unique payload env s :
  emails_unique s -> emails_unique (snd (signup payload env s)).
Proof.
  intros Hu. rewrite signup_eq.
  destruct (find _ _) eqn:Hf; [exact Hu|].
  pose proof (find_none _ _ Hf) as Hno.
  assert (Hnew : forall x, In x (user_docs s) ->
                           User.email (fields x) <> SignupPayload.email payload).
  { intros x Hx E. apply email_is_eq in E. rewrite (Hno x Hx) in E. discriminate. }
  intros a b Ha Hb E. cbn [snd user_docs] in Ha, Hb.
  apply in_app_or in Ha. apply in_app_or in Hb.
  destruct Ha as [Ha|[<-|[]]]; destruct Hb as [Hb|[<-|[]]].
  - now apply Hu.
  - cbn in E. now destruct (Hnew a Ha).
  - cbn in E. symmetry in E. now destruct (Hnew b Hb).
  - reflexivity.
Qed.

(* ===================================================================== *)
(** ** Order listing *)

Section SortCreatedAt.
Context {A : Type}.
Implicit Types (d : Doc Bson.ObjectId A) (l : list (Doc Bson.ObjectId A)).

Lemma insert_desc_perm d l : Permutation (Mongo.insert_desc d l) (d :: l).
Proof.
  induction l as [|x l IH]; cbn [Mongo.insert_desc]; [reflexivity|].
  destruct (created_at x <=? created_at d); [reflexivity|].
  rewrite IH. apply perm_swap.
Qed.

Lemma sort_created_at_desc_perm l :
  Permutation (Mongo.sort_created_at_desc l) l.
Proof.
  induction l as [|x l IH]; [reflexivity|].
  cbn [Mongo.sort_created_at_desc fold_right].
  fold (Mongo.sort_created_at_desc l).
  rewrite insert_desc_perm. now constructor.
Qed.

Lemma insert_desc_sorted d l :
  newest_first l -> newest_first (Mongo.insert_desc d l).
Proof.
  unfold newest_first.
  induction l as [|x l IH]; intros Hs; cbn [Mongo.insert_desc].
  - constructor; constructor.
  - inversion Hs as [|? ? Hl Hx]; subst.
    destruct (created_at x <=? created_at d) eqn:E.
    + apply Z.leb_le in E. constructor; [exact Hs|].
      constructor; [exact E|].
      eapply Forall_impl; [|exact Hx]. cbn. intros; lia.
    + apply Z.leb_gt in E. constructor; [now apply IH|].
      eapply Permutation_Forall; [symmetry; apply insert_desc_perm|].
      constructor; [lia|exact Hx].
Qed.

Lemma sort_created_at_desc_sorted l :
  newest_first (Mongo.sort_created_at_desc l).
Proof.
  induction l as [|x l IH].
  - constructor.
  - cbn [Mongo.sort_created_at_desc fold_right].
    now apply insert_desc_sorted.
Qed.

Lemma newest_first_str_id l : newest_first l -> newest_first (map str_id l).
Proof.
  unfold newest_first. induction 1 as [|x l Hl IH Hx]; cbn [map]; constructor.
  - exact IH.
  - apply Forall_map. exact Hx.
Qed.
End SortCreatedAt.

Lemma list_orders_eq authorization env s user :
  resolve authorization env s = (Ok user, s) ->
  list_orders authorization env s =
  match user with
  | None => (Raise (HTTPException 401 "Unauthorized"), s)
  | Some u =>
      (Ok (map str_id
               (Mongo.sort_created_at_desc
                  (filter (if User.is_admin (fields u)
                           then fun _ => true
                           else owned_by (_id u))
                          (order_docs s)))), s)
  end.
Proof.
  intros Hr. unfold list_orders. erewrite resolved_then by exact Hr.
  destruct user as [u|]; [|reflexivity].
  unfold bind, Mongo.find, ret. cbn [docs Db.order].
  now destruct (User.is_admin (fields u)).
Qed.

Lemma owned_by_eq uid o :
  owned_by uid o = true <-> Order.user_id (fields o) = Some uid.
Proof.
  unfold owned_by. destruct (Order.user_id (fields o)) as [v|].
  - rewrite String.eqb_eq. split; congruence.
  - split; discriminate.
Qed.

Lemma filter_all {A} (l : list A) : filter (fun _ => true) l = l.
Proof. induction l as [|x l IH]; cbn; congruence. Qed.

(** C4. Listing orders: an anonymous caller gets 401.  A caller who is
    not an admin gets exactly the orders whose user_id is the caller's
    own id, and so never an order of somebody else; an admin gets all
    orders.  In both cases the list is ordered newest first by creation
    time, and the store is not changed. *)
Theorem C4_list_orders_owner_or_admin :
  forall authorization env s,
  exists user,
    resolve authorization env s = (Ok user, s)
    /\ (user = None ->
        list_orders authorization env s
        = (Raise (HTTPException 401 "Unauthorized"), s))
    /\ (forall u, user = Some u ->
        exists orders,
          list_orders authorization env s = (Ok orders, s)
          /\ newest_first orders
          /\ (User.is_admin (fields u) = false ->
              Permutation orders
                          (map str_id (filter (owned_by (_id u)) (order_docs s)))
              /\ Forall (fun o => Order.user_id (fields o) = Some (_id u)) orders)
          /\ (User.is_admin (fields u) = true ->
              Permutation orders (map str_id (order_docs s)))).
Proof.
  intros authorization env s.
  destruct (resolve_returns authorization env s) as [user Hr].
  exists user. split; [exact Hr|].
  rewrite (list_orders_eq _ _ _ _ Hr). split.
  - now intros ->.
  - intros u ->. eexists. split; [reflexivity|]. split; [|split].
    + apply newest_first_str_id, sort_created_at_desc_sorted.
    + intros ->. split.
      * apply Permutation_map, sort_created_at_desc_perm.
      * apply Forall_map.
        eapply Permutation_Forall; [symmetry; apply sort_created_at_desc_perm|].
        apply Forall_forall. intros o Ho. apply filter_In in Ho.
        now apply owned_by_eq.
    + intros ->. rewrite filter_all.
      apply Permutation_map, sort_created_at_desc_perm.
Qed.

(* ===================================================================== *)
(** ** Checkout *)

Lemma create_order_eq payload authorization env s user :
  resolve authorization env s = (Ok user, s) ->
  create_order payload authorization env s =
  match order_total (CheckoutPayload.items payload) with
  | None => (Raise OverflowError, s)
  | Some total =>
      if Py.fleb Py.fzero total
      then if quantities_fit (CheckoutPayload.items payload)
           then (Ok (mkOrderResponse (Bson.str (inserted_id env)) total),
                 mkStore (user_docs s) (product_docs s)
                         (order_docs s ++ [order_doc payload user total env]))
           else (Raise OverflowError, s)
      else (Raise ValidationError, s)
  end.
Proof.
  intros Hr. unfold create_order. erewrite resolved_then by exact Hr.
  unfold bind, Order_new, create_document, Mongo.insert_one, ret, raise, Order.valid.
  destruct (order_total _) as [total|]; [|reflexivity].
  cbn [Order.total]. destruct (Py.fleb Py.fzero total); [|reflexivity].
  cbn [bson_ok Db.order fields Order.items]. fold (quantities_fit (CheckoutPayload.items payload)).
  now destruct (quantities_fit _).
Qed.



(** A negative float is not [>= 0]. *)
Lemma negative_not_ge0 x : Py.fltb x Py.fzero = true -> Py.fleb Py.fzero x = false.
Proof.
  unfold Py.fltb, Py.fleb, SFltb, SFleb, Py.fzero.
  destruct x as [[|]|[|]| |[|] m e]; cbn; congruence.
Qed.


(** C10. An order item is valid whatever its price, negative included,
    while a product needs price >= 0 and an order needs total >= 0.
    So a checkout whose items sum to a negative total fails when the
    order is built: ValidationError, nothing written to the store. *)
Theorem C10_negative_total_is_rejected :
  (forall product_id title price quantity image,
      1 <= quantity ->
      OrderItem.valid (OrderItem.mk product_id title price quantity image) = true)
  /\ (forall p, Product.valid p = true -> Py.fltb (Product.price p) Py.fzero = false)
  /\ (forall o, Order.valid o = true -> Py.fltb (Order.total o) Py.fzero = false)
  /\ (forall payload authorization env s total,
         order_total (CheckoutPayload.items payload) = Some total ->
         Py.fltb total Py.fzero = true ->
         create_order payload authorization env s = (Raise ValidationError, s)).
Proof.
  split; [|split; [|split]].
  - intros product_id title price quantity image Hq.
    unfold OrderItem.valid. now apply Z.leb_le.
  - intros p Hv. unfold Product.valid in Hv.
    destruct (Py.fltb (Product.price p) Py.fzero) eqn:E; [|reflexivity].
    apply negative_not_ge0 in E. congruence.
  - intros o Hv. unfold Order.valid in Hv.
    destruct (Py.fltb (Order.total o) Py.fzero) eqn:E; [|reflexivity].
    apply negative_not_ge0 in E. congruence.
  - intros payload authorization env s total Ht Hneg.
    destruct (resolve_returns authorization env s) as [user Hr].
    rewrite (create_order_eq _ _ _ _ _ Hr), Ht, (negative_not_ge0 _ Hneg).
    reflexivity.
Qed.

(* ===================================================================== *)
(** ** Catalog search *)

Lemma list_products_all env s search :
  search = None \/ search = Some "" ->
  list_products search env s = (Ok (map str_id (product_docs s)), s).
Proof.
  intros [->| ->]; unfold list_products, bind, ret, Mongo.find;
    cbn [Py.truthy docs Db.product]; now rewrite filter_all.
Qed.

Lemma compile_literal p :
  literal p = true ->
  Regex.compile p = Some (map Regex.Lit (list_ascii_of_string p)).
Proof.
  induction p as [|c p IH]; [reflexivity|].
  cbn [literal Regex.compile list_ascii_of_string map].
  intros H. apply andb_prop in H as [H Hp]. apply andb_prop in H as [Hm Ha].
  rewrite (IH Hp).
  assert (Ascii.eqb c "." = false) as ->.
  { destruct (Ascii.eqb c ".") eqn:E; [|reflexivity].
    apply Ascii.eqb_eq in E. subst c. discriminate. }
  apply negb_true_iff in Hm. rewrite Hm. apply N.ltb_lt in Ha.
  assert ((128 <=? N_of_ascii c)%N = false) as -> by (apply N.leb_gt; exact Ha).
  reflexivity.
Qed.

Lemma match_here_literal p text :
  Regex.match_here (map Regex.Lit (list_ascii_of_string p)) text = iprefix p text.
Proof.
  revert text. induction p as [|c p IH]; intros text; [reflexivity|].
  destruct text as [|d text]; [reflexivity|].
  cbn [list_ascii_of_string map Regex.match_here iprefix Regex.atom_matches].
  now rewrite IH.
Qed.

Lemma search_literal p text :
  Regex.search (map Regex.Lit (list_ascii_of_string p)) text = icontains p text.
Proof.
  induction text as [|d text IH]; cbn [Regex.search icontains];
    rewrite match_here_literal; [reflexivity|]. now rewrite IH.
Qed.

(** [icontains] is substring containment after case folding. *)
Lemma iprefix_app needle hay :
  iprefix needle hay = true <->
  exists post, lowercase hay = (lowercase needle ++ post)%string.
Proof.
  revert hay. induction needle as [|a n IH]; intros hay.
  - split; [intros _; now exists (lowercase hay)|reflexivity].
  - destruct hay as [|b h]; cbn [iprefix lowercase String.append].
    + split; [discriminate|intros [post [=]]].
    + rewrite andb_true_iff, Ascii.eqb_eq, IH. split.
      * intros [-> [post ->]]. now exists post.
      * intros [post [= -> ->]]. split; [reflexivity|now exists post].
Qed.

Lemma icontains_substring needle hay :
  icontains needle hay = true <->
  exists pre post, lowercase hay = (pre ++ lowercase needle ++ post)%string.
Proof.
  induction hay as [|b h IH]; cbn [icontains].
  - rewrite orb_false_r, iprefix_app. split.
    + intros [post H]. now exists "", post.
    + intros (pre & post & H). destruct pre as [|c pre].
      * now exists post.
      * discriminate.
  - rewrite orb_true_iff, iprefix_app, IH. split.
    + intros [[post H]|(pre & post & H)].
      * now exists "", post.
      * exists (String (Regex.lower b) pre), post. cbn. now rewrite H.
    + intros (pre & post & H). destruct pre as [|c pre].
      * left. now exists post.
      * right. cbn in H. injection H as _ H. now exists pre, post.
Qed.

(** On a search string without metacharacters the handler does what the
    spec says: it returns the products whose title or category contains
    the string, letter case ignored. *)
Lemma list_products_literal_search pattern env s :
  Py.truthy pattern = true -> literal pattern = true ->
  list_products (Some pattern) env s =
  (Ok (map str_id (filter (title_or_category_contains pattern) (product_docs s))), s).
Proof.
  intros Ht Hl. unfold list_products, bind, ret, Mongo.find.
  rewrite Ht, (compile_literal _ Hl). cbn [docs Db.product].
  do 3 f_equal. apply filter_ext. intros p.
  unfold title_or_category_contains. now rewrite !search_literal.
Qed.

(** C7 (divergence). The search string goes to [$regex] as it is, so it
    is read as a regular expression and not as a substring.  Searching
    for "." returns both sample products, though neither title nor
    category of either contains a full stop; a substring search returns
    none. *)
Theorem C7_search_string_is_a_regex :
  list_products (Some ".") Sample.env Sample.store
  = (Ok [str_id Sample.wallet; str_id Sample.lamp], Sample.store)
  /\ filter (title_or_category_contains ".") (product_docs Sample.store) = [].
Proof. split; reflexivity. Qed.

(* ===================================================================== *)
(** ** Tokens *)

Lemma hex_of_byte_digits b k :
  forallb is_hexdigit (list_ascii_of_string k) = true ->
  forallb is_hexdigit (list_ascii_of_string (Py.hex_of_byte b k)) = true.
Proof.
  intros H. unfold Py.hex_of_byte. cbn [list_ascii_of_string forallb].
  rewrite H. destruct b; reflexivity.
Qed.

Lemma hexlify_digits bs :
  forallb is_hexdigit (list_ascii_of_string (Py.hexlify bs)) = true.
Proof.
  induction bs as [|b bs IH]; [reflexivity|].
  cbn [Py.hexlify fold_right]. now apply hex_of_byte_digits.
Qed.

Lemma map_seq_ext {A} (f g : nat -> A) n a :
  map f (seq a n) = map g (seq a n) ->
  forall i, (a <= i < a + n)%nat -> f i = g i.
Proof.
  revert a. induction n as [|n IH]; intros a H i Hi; [lia|].
  cbn [seq map] in H. injection H as H0 H.
  destruct (Nat.eq_dec i a) as [->|Hne]; [exact H0|].
  apply (IH (S a) H). lia.
Qed.

(** C8. The token of a successful login is the hexadecimal text of 16
    bytes taken from the system's random source and of nothing else: it
    is 32 characters long, all of them hexadecimal digits, it does not
    depend on the user, the payload or the store, and two draws that
    differ in any of their 128 bits give different tokens. *)
Theorem C8_token_is_128_random_bits_in_hex :
  forall payload env s resp s',
    login payload env s = (Ok resp, s') ->
    lr_token resp = Py.hexlify (map (urandom env) (seq 0 16))
    /\ String.length (lr_token resp) = 32%nat
    /\ forallb is_hexdigit (list_ascii_of_string (lr_token resp)) = true
    /\ (forall payload2 env2 s2 resp2 s2',
           login payload2 env2 s2 = (Ok resp2, s2') ->
           (lr_token resp2 = lr_token resp <->
            forall i, (i < 16)%nat -> urandom env2 i = urandom env i)).
Proof.
  assert (Htok : forall payload env s resp s',
             login payload env s = (Ok resp, s') ->
             lr_token resp = Py.hexlify (map (urandom env) (seq 0 16))).
  { intros payload env s resp s'. rewrite login_eq.
    destruct (find _ _) as [u|]; [|discriminate].
    destruct (String.eqb _ _); [|discriminate].
    now intros [= <- _]. }
  intros payload env s resp s' H. rewrite (Htok _ _ _ _ _ H).
  split; [reflexivity|]. split; [|split].
  - rewrite hexlify_length, length_map, length_seq. reflexivity.
  - apply hexlify_digits.
  - intros payload2 env2 s2 resp2 s2' H2. rewrite (Htok _ _ _ _ _ H2). split.
    + intros E i Hi. apply hexlify_inj in E.
      apply (map_seq_ext _ _ 16 0 E). lia.
    + intros E. f_equal. apply map_ext_in. intros i Hi.
      apply in_seq in Hi. apply E. lia.
Qed.

(* ===================================================================== *)
(** ** Product update *)

Lemma set_items_model_dump body p :
  set_items (ProductPayload.model_dump (ProductPayload.of_body body)) p
  = product_of_body body.
Proof. reflexivity. Qed.

Lemma update_product_eq product_id payload authorization env s user :
  resolve authorization env s = (Ok user, s) ->
  update_product product_id payload authorization env s =
  if is_admin_user user
  then match Bson.ObjectId_of_str product_id with
       | None => (Raise (HTTPException 400 "Invalid product id"), s)
       | Some oid =>
           let (l, n) :=
             Mongo.update_first (fun p => Bson.eqb (_id p) oid)
                                (set_items (ProductPayload.model_dump payload))
                                (product_docs s) in
           (if n =? 0 then Raise (HTTPException 404 "Product not found") else Ok true,
            mkStore (user_docs s) l (order_docs s))
       end
  else (Raise (HTTPException 403 "Admin only"), s).
Proof.
  intros Hr. unfold update_product. erewrite resolved_then by exact Hr.
  destruct (is_admin_user user); cbn [negb]; [|reflexivity].
  destruct (Bson.ObjectId_of_str product_id) as [oid|]; [|reflexivity].
  unfold bind, Mongo.update_one, ret, raise. cbn [docs with_docs Db.product].
  destruct (Mongo.update_first _ _ _) as [l n]. now destruct (n =? 0).
Qed.

(** C9. A successful product update is made by an admin, on the first
    product with the given id, and writes all six fields from the
    payload, whatever the product held before: a description or image
    left out of the body becomes null and an in_stock left out becomes
    true.  The [_id], the timestamps and every other document stay. *)
Theorem C9_update_replaces_all_six_fields :
  forall product_id body authorization env s r s',
    update_product product_id (ProductPayload.of_body body) authorization env s
    = (Ok r, s') ->
    exists user oid l1 d l2,
      resolve authorization env s = (Ok user, s)
      /\ is_admin_user user = true
      /\ Bson.ObjectId_of_str product_id = Some oid
      /\ product_docs s = l1 ++ d :: l2
      /\ _id d = oid
      /\ (forall x, In x l1 -> _id x <> oid)
      /\ s' = mkStore (user_docs s)
                      (l1 ++ mkDoc (_id d) (product_of_body body)
                                   (created_at d) (updated_at d) :: l2)
                      (order_docs s).
Proof.
  intros product_id body authorization env s r s'.
  destruct (resolve_returns authorization env s) as [user Hr].
  rewrite (update_product_eq _ _ _ _ _ _ Hr).
  destruct (is_admin_user user) eqn:Hadm; [|discriminate].
  destruct (Bson.ObjectId_of_str product_id) as [oid|]; [|discriminate].
  destruct (update_first_spec (fun p => Bson.eqb (_id p) oid)
              (set_items (ProductPayload.model_dump (ProductPayload.of_body body)))
              (product_docs s))
    as [[_ ->]|(l1 & d & l2 & Hl & _ & Hl1 & Hd & ->)].
  - cbn. discriminate.
  - cbn [Z.eqb]. intros [= _ <-].
    exists user, oid, l1, d, l2. apply bytes_eqb_eq in Hd.
    repeat split; auto.
    intros x Hx E. specialize (Hl1 x Hx). cbn in Hl1.
    apply bytes_eqb_eq in E. unfold Bson.eqb in Hl1. congruence.
Qed.

(* ===================================================================== *)
(** ** Concrete runs on the sample store *)

Lemma sample_ids_unique : ids_unique Sample.store.
Proof.
  unfold ids_unique. cbn. repeat constructor; cbn; intuition discriminate.
Qed.

Lemma sample_tokens_unique : tokens_unique Sample.store.
Proof.
  intros t u v [<-|[<-|[]]] [<-|[<-|[]]] Hu Hv;
    unfold holds_token in *; vm_compute in Hu; vm_compute in Hv; congruence.
Qed.

Lemma sample_token_fresh : fresh_token (login_token Sample.env) Sample.store.
Proof.
  intros u [<-|[<-|[]]]; unfold holds_token; vm_compute; discriminate.
Qed.

Lemma sample_ann_resolves :
  resolve (Some ("Bearer " ++ Sample.ann_token)%string) Sample.env Sample.store
  = (Ok (Some (str_id Sample.ann)), Sample.store).
Proof. vm_compute. reflexivity. Qed.

(** Ann, who is no admin, asks to update a product under an id that is
    not even an ObjectId: 403, store untouched. *)
Lemma C1_witness :
  update_product "not-an-id" (ProductPayload.of_body
                                (ProductPayload.mkBody "x" None (float_lit (-1)) "y" None None))
                 (Some ("Bearer " ++ Sample.ann_token)%string)
                 Sample.env Sample.store
  = (Raise (HTTPException 403 "Admin only"), Sample.store).
Proof.
  destruct (C1_admin_only_routes
              "not-an-id"
              (ProductPayload.of_body
                 (ProductPayload.mkBody "x" None (float_lit (-1)) "y" None None))
              (Some ("Bearer " ++ Sample.ann_token)%string)
              Sample.env Sample.store) as (user & Hr & _ & _ & (Hden & _) & _).
  apply Hden.
  assert (user = Some (str_id Sample.ann)) as ->
      by (pose proof sample_ann_resolves; congruence). reflexivity.
Defined.

(** Ann's token resolves to Ann. *)
Lemma C3_witness :
  resolve (Some ("Bearer " ++ Sample.ann_token)%string) Sample.env Sample.store
  = (Ok (Some (str_id Sample.ann)), Sample.store).
Proof.
  destruct (C3_token_resolution_never_raises
              (Some ("Bearer " ++ Sample.ann_token)%string)
              Sample.env Sample.store) as (user & Hr & _ & _ & _ & _ & Hm).
  destruct (Hm Sample.ann_token Sample.ann eq_refl) as (v & _ & _ & -> & Hv).
  - discriminate.
  - left. reflexivity.
  - reflexivity.
  - rewrite (Hv sample_tokens_unique) in Hr. exact Hr.
Defined.



(** The spec's scenario: after signup, a first login returns T1 and a
    second one T2, different from T1; then [/api/me] answers 401 to T1
    and knows Ann under T2. *)
Example relogin_invalidates_first_token :
  fst (login Sample.ann_login Sample.env Sample.s1)
  = Ok (mkLoginResponse (login_token Sample.env) "Ann" false)
  /\ fst (login Sample.ann_login Sample.env2 Sample.s2)
     = Ok (mkLoginResponse (login_token Sample.env2) "Ann" false)
  /\ login_token Sample.env <> login_token Sample.env2
  /\ me (Some ("Bearer " ++ login_token Sample.env)%string) Sample.env2 Sample.s3
     = (Raise (HTTPException 401 "Unauthorized"), Sample.s3)
  /\ me (Some ("Bearer " ++ login_token Sample.env2)%string) Sample.env2 Sample.s3
     = (Ok (mkMeResponse "Ann" "ann@x.com" false), Sample.s3).
Proof.
  split; [|split; [|split; [|split]]];
    try (vm_compute; reflexivity).
  vm_compute. discriminate.
Qed.

(** Ann lists her orders: the two she owns and not the guest's, the
    later one first. *)
Lemma C4_witness :
  exists orders,
    list_orders (Some ("Bearer " ++ Sample.ann_token)%string) Sample.env Sample.store
    = (Ok orders, Sample.store)
    /\ newest_first orders
    /\ Forall (fun o => Order.user_id (fields o) = Some Sample.ann_id) orders
    /\ Permutation orders
                   [str_id (Sample.order_of x05 (Some Sample.ann_id) 20);
                    str_id (Sample.order_of x07 (Some Sample.ann_id) 40)].
Proof.
  destruct (C4_list_orders_owner_or_admin
              (Some ("Bearer " ++ Sample.ann_token)%string)
              Sample.env Sample.store) as (user & Hr & _ & Hsome).
  assert (user = Some (str_id Sample.ann)) as ->
      by (pose proof sample_ann_resolves; congruence).
  destruct (Hsome _ eq_refl) as (orders & Hl & Hs & Hown & _).
  destruct (Hown eq_refl) as [Hp Hf].
  exists orders. repeat split; assumption.
Defined.

Example list_orders_ann :
  list_orders (Some ("Bearer " ++ Sample.ann_token)%string) Sample.env Sample.store
  = (Ok [str_id (Sample.order_of x07 (Some Sample.ann_id) 40);
         str_id (Sample.order_of x05 (Some Sample.ann_id) 20)], Sample.store).
Proof. vm_compute. reflexivity. Qed.



(** A second signup with Ann's address is refused and adds nothing. *)
Lemma C6_witness :
  signup (SignupPayload.mk "Ann again" "ann@x.com" "pw9") Sample.env Sample.store
  = (Raise (HTTPException 400 "Email already registered"), Sample.store).
Proof.
  apply (C6_signup_rejects_duplicate_email
           (SignupPayload.mk "Ann again" "ann@x.com" "pw9") Sample.env Sample.store).
  exists Sample.ann. split; [left|]; reflexivity.
Defined.

Lemma C8_witness :
  exists resp s',
    login Sample.ann_login Sample.env Sample.store = (Ok resp, s')
    /\ String.length (lr_token resp) = 32%nat
    /\ forallb is_hexdigit (list_ascii_of_string (lr_token resp)) = true.
Proof.
  assert (H : exists resp s',
             login Sample.ann_login Sample.env Sample.store
             = (Ok resp, s'))
    by (do 2 eexists; vm_compute; reflexivity).
  destruct H as (resp & s' & H). exists resp, s'. split; [exact H|].
  destruct (C8_token_is_128_random_bits_in_hex _ _ _ _ _ H) as (_ & Hlen & Hhex & _).
  now split.
Defined.

(** Root updates the wallet with a body that names no description: the
    description stored before is gone. *)
Lemma C9_witness :
  exists s',
    update_product (Bson.str (Sample.oid x03))
                   (ProductPayload.of_body Sample.bare_body)
                   (Some ("Bearer " ++ Sample.root_token)%string)
                   Sample.env Sample.store = (Ok true, s')
    /\ product_docs s'
       = [mkDoc (Sample.oid x03)
                (Product.mk "Wallet" None (float_lit 5) "misc" None true) 12 12;
          Sample.lamp].
Proof.
  assert (H : exists s',
             update_product (Bson.str (Sample.oid x03))
                            (ProductPayload.of_body Sample.bare_body)
                            (Some ("Bearer " ++ Sample.root_token)%string)
                            Sample.env Sample.store = (Ok true, s'))
    by (eexists; vm_compute; reflexivity).
  destruct H as (s' & H). exists s'. split; [exact H|].
  destruct (C9_update_replaces_all_six_fields _ _ _ _ _ _ _ H)
    as (user & oid & l1 & d & l2 & _ & _ & Hoid & Hl & Hd & Hl1 & ->).
  vm_compute in Hoid. injection Hoid as <-.
  destruct l1 as [|a [|b l1]]; cbn in Hl.
  - injection Hl as <- <-. reflexivity.
  - injection Hl as _ <- _. vm_compute in Hd. discriminate.
  - injection Hl as _ _ Hl. now destruct l1.
Defined.

(** Two items at -5 each: the order is refused, the store unchanged. *)
Lemma C10_witness :
  OrderItem.valid (Sample.item (-5) 2) = true
  /\ create_order Sample.refund None Sample.env Sample.store
     = (Raise ValidationError, Sample.store).
Proof.
  destruct C10_negative_total_is_rejected as (Hitem & _ & _ & Hneg).
  split.
  - apply Hitem. lia.
  - apply (Hneg _ _ _ _ (float_lit (-10))); vm_compute; reflexivity.
Defined.

(* ===================================================================== *)
(** ** Frame properties of the handlers *)

Lemma store_eta s : mkStore (user_docs s) (product_docs s) (order_docs s) = s.
Proof. now destruct s. Qed.

Lemma bearer_token_indep a env s env' s' :
  fst (bearer_token a env s) = fst (bearer_token a env' s').
Proof.
  destruct a as [a|]; [|reflexivity]. unfold bearer_token.
  destruct (Py.truthy a && Py.startswith a "Bearer "); [|reflexivity].
  now destruct (nth_error (Py.split1 " " a) 1).
Qed.

(** The identity depends on the header and on the user records only. *)
Lemma resolve_frame a env s env' s' user :
  user_docs s' = user_docs s ->
  resolve a env s = (Ok user, s) -> resolve a env' s' = (Ok user, s').
Proof.
  intros Hu. unfold resolve, bind.
  pose proof (bearer_token_indep a env s env' s') as Hfst.
  destruct (bearer_token_returns a env s) as [t Ht].
  destruct (bearer_token_returns a env' s') as [t' Ht'].
  rewrite Ht, Ht' in *. cbn in Hfst. injection Hfst as <-.
  rewrite !user_from_token_eq, Hu. intros [= <-]. reflexivity.
Qed.

Lemma me_eq authorization env s user :
  resolve authorization env s = (Ok user, s) ->
  me authorization env s =
  match user with
  | None => (Raise (HTTPException 401 "Unauthorized"), s)
  | Some u => (Ok (mkMeResponse (User.name (fields u)) (User.email (fields u))
                                (User.is_admin (fields u))), s)
  end.
Proof.
  intros Hr. unfold me. erewrite resolved_then by exact Hr.
  now destruct user.
Qed.

Lemma set_items_payload payload p :
  set_items (ProductPayload.model_dump payload) p = product_of_payload payload.
Proof. reflexivity. Qed.

Lemma create_product_eq payload authorization env s user :
  resolve authorization env s = (Ok user, s) ->
  create_product payload authorization env s =
  if is_admin_user user
  then if Product.valid (product_of_payload payload)
       then (Ok (Bson.str (inserted_id env)),
             mkStore (user_docs s) (product_docs s ++ [new_product payload env])
                     (order_docs s))
       else (Raise ValidationError, s)
  else (Raise (HTTPException 403 "Admin only"), s).
Proof.
  intros Hr. unfold create_product. erewrite resolved_then by exact Hr.
  destruct (is_admin_user user); cbn [negb]; [|reflexivity].
  unfold bind, Product_new. rewrite set_items_payload.
  now destruct (Product.valid (product_of_payload payload)).
Qed.

Lemma delete_product_eq product_id authorization env s user :
  resolve authorization env s = (Ok user, s) ->
  delete_product product_id authorization env s =
  if is_admin_user user
  then match Bson.ObjectId_of_str product_id with
       | None => (Raise (HTTPException 400 "Invalid product id"), s)
       | Some oid =>
           let (l, n) :=
             Mongo.delete_first (fun p => Bson.eqb (_id p) oid) (product_docs s) in
           (if n =? 0 then Raise (HTTPException 404 "Product not found") else Ok true,
            mkStore (user_docs s) l (order_docs s))
       end
  else (Raise (HTTPException 403 "Admin only"), s).
Proof.
  intros Hr. unfold delete_product. erewrite resolved_then by exact Hr.
  destruct (is_admin_user user); cbn [negb]; [|reflexivity].
  destruct (Bson.ObjectId_of_str product_id) as [oid|]; [|reflexivity].
  unfold bind, Mongo.delete_one, ret, raise. cbn [docs with_docs Db.product].
  destruct (Mongo.delete_first _ _) as [l n]. now destruct (n =? 0).
Qed.

Lemma list_products_store search env s : snd (list_products search env s) = s.
Proof.
  unfold list_products, bind, ret, raise, Mongo.find.
  destruct search as [p|]; [|reflexivity].
  destruct (Py.truthy p); [|reflexivity].
  now destruct (Regex.compile p).
Qed.

Lemma signup_atomic payload : atomic (signup payload).
Proof.
  intros env s e. rewrite signup_eq. now destruct (find _ _).
Qed.

Lemma login_atomic payload : atomic (login payload).
Proof.
  intros env s e. rewrite login_eq.
  destruct (find _ _); [|reflexivity]. now destruct (String.eqb _ _).
Qed.

Lemma create_product_atomic payload authorization :
  atomic (create_product payload authorization).
Proof.
  intros env s e. destruct (resolve_returns authorization env s) as [user Hr].
  rewrite (create_product_eq _ _ _ _ _ Hr).
  destruct (is_admin_user user); [|reflexivity].
  now destruct (Product.valid _).
Qed.

Lemma update_product_atomic product_id payload authorization :
  atomic (update_product product_id payload authorization).
Proof.
  intros env s e. destruct (resolve_returns authorization env s) as [user Hr].
  rewrite (update_product_eq _ _ _ _ _ _ Hr).
  destruct (is_admin_user user); [|reflexivity].
  destruct (Bson.ObjectId_of_str product_id) as [oid|]; [|reflexivity].
  destruct (update_first_spec (fun p => Bson.eqb (_id p) oid)
              (set_items (ProductPayload.model_dump payload)) (product_docs s))
    as [[_ ->]|(l1 & d & l2 & _ & _ & _ & _ & ->)]; cbn.
  - intros _. apply store_eta.
  - discriminate.
Qed.

Lemma delete_product_atomic product_id authorization :
  atomic (delete_product product_id authorization).
Proof.
  intros env s e. destruct (resolve_returns authorization env s) as [user Hr].
  rewrite (delete_product_eq _ _ _ _ _ Hr).
  destruct (is_admin_user user); [|reflexivity].
  destruct (Bson.ObjectId_of_str product_id) as [oid|]; [|reflexivity].
  destruct (delete_first_spec (fun p => Bson.eqb (_id p) oid) (product_docs s))
    as [[_ ->]|(l1 & d & l2 & _ & _ & _ & _ & ->)]; cbn.
  - intros _. apply store_eta.
  - discriminate.
Qed.

Lemma create_order_atomic payload authorization :
  atomic (create_order payload authorization).
Proof.
  intros env s e. destruct (resolve_returns authorization env s) as [user Hr].
  rewrite (create_order_eq _ _ _ _ _ Hr).
  destruct (order_total _); [|reflexivity].
  destruct (Py.fleb _ _); [|reflexivity]. now destruct (quantities_fit _).
Qed.

Lemma me_read_only authorization : read_only (me authorization).
Proof.
  intros env s. destruct (resolve_returns authorization env s) as [user Hr].
  rewrite (me_eq _ _ _ _ Hr). now destruct user.
Qed.

Lemma list_orders_read_only authorization : read_only (list_orders authorization).
Proof.
  intros env s. destruct (resolve_returns authorization env s) as [user Hr].
  rewrite (list_orders_eq _ _ _ _ Hr). now destruct user.
Qed.

(** X1. No partial success: whichever handler raises (an HTTP error or
    any other exception), the store is exactly what it was before the
    request, for every input. *)
Theorem X1_failed_requests_leave_the_store :
  forall product_id signup_payload login_payload product_payload checkout search
         authorization,
    atomic (signup signup_payload)
    /\ atomic (login login_payload)
    /\ atomic (me authorization)
    /\ atomic (list_products search)
    /\ atomic (create_product product_payload authorization)
    /\ atomic (update_product product_id product_payload authorization)
    /\ atomic (delete_product product_id authorization)
    /\ atomic (create_order checkout authorization)
    /\ atomic (list_orders authorization).
Proof.
  intros. repeat split.
  - apply signup_atomic.
  - apply login_atomic.
  - intros env s e _. apply me_read_only.
  - intros env s e _. apply list_products_store.
  - apply create_product_atomic.
  - apply update_product_atomic.
  - apply delete_product_atomic.
  - apply create_order_atomic.
  - intros env s e _. apply list_orders_read_only.
Qed.

(** X2. The three reading endpoints, [/api/me], the catalog listing and
    the order listing, never write: the store after the request is the
    store before it, whatever the header, the search string and the
    outcome. *)
Theorem X2_reading_endpoints_never_write :
  forall authorization search,
    read_only (me authorization)
    /\ read_only (list_products search)
    /\ read_only (list_orders authorization).
Proof.
  intros. repeat split.
  - apply me_read_only.
  - intros env s. apply list_products_store.
  - apply list_orders_read_only.
Qed.

Lemma login_users payload env s :
  user_docs (snd (login payload env s)) = user_docs s \/
  exists l1 d l2,
    user_docs s = l1 ++ d :: l2 /\
    user_docs (snd (login payload env s))
    = l1 ++ Mongo.touched (set_token (login_token env)) d :: l2.
Proof.
  rewrite login_eq.
  destruct (find _ _) as [u|]; [|now left].
  destruct (String.eqb _ _); [|now left]. cbn [snd user_docs].
  destruct (update_first_spec (fun d => Bson.eqb (_id d) (_id u))
              (set_token (login_token env)) (user_docs s))
    as [[_ ->]|(l1 & d & l2 & Hl & _ & _ & _ & ->)]; [now left|].
  right. now exists l1, d, l2.
Qed.

Lemma product_handlers_keep_users product_id payload authorization env s :
  user_docs (snd (create_product payload authorization env s)) = user_docs s
  /\ user_docs (snd (update_product product_id payload authorization env s))
     = user_docs s
  /\ user_docs (snd (delete_product product_id authorization env s)) = user_docs s.
Proof.
  destruct (resolve_returns authorization env s) as [user Hr].
  rewrite (create_product_eq _ _ _ _ _ Hr), (update_product_eq _ _ _ _ _ _ Hr),
    (delete_product_eq _ _ _ _ _ Hr).
  destruct (is_admin_user user); [|now repeat split].
  split; [now destruct (Product.valid _)|].
  destruct (Bson.ObjectId_of_str product_id) as [oid|]; [|now split].
  split.
  - now destruct (Mongo.update_first _ _ _).
  - now destruct (Mongo.delete_first _ _).
Qed.

Lemma create_order_keeps_users payload authorization env s :
  user_docs (snd (create_order payload authorization env s)) = user_docs s.
Proof.
  destruct (resolve_returns authorization env s) as [user Hr].
  rewrite (create_order_eq _ _ _ _ _ Hr).
  destruct (order_total _); [|reflexivity].
  destruct (Py.fleb _ _); [|reflexivity]. now destruct (quantities_fit _).
Qed.

Lemma same_users_same_admins s s' :
  user_docs s' = user_docs s -> admin_ids s' = admin_ids s.
Proof. unfold admin_ids. now intros ->. Qed.

(** X3. No request changes who is an admin: after any handler, with any
    input and any outcome, the user records with is_admin set are the
    same as before.  Signup always creates a plain user, login touches
    the token only, and the other handlers do not write to the users. *)
Theorem X3_no_request_changes_the_admins :
  forall product_id signup_payload login_payload product_payload checkout search
         authorization,
    keeps_admins (signup signup_payload)
    /\ keeps_admins (login login_payload)
    /\ keeps_admins (me authorization)
    /\ keeps_admins (list_products search)
    /\ keeps_admins (create_product product_payload authorization)
    /\ keeps_admins (update_product product_id product_payload authorization)
    /\ keeps_admins (delete_product product_id authorization)
    /\ keeps_admins (create_order checkout authorization)
    /\ keeps_admins (list_orders authorization).
Proof.
  intros. repeat split; intros env s.
  - rewrite signup_eq. destruct (find _ _); [reflexivity|].
    unfold admin_ids. cbn [snd user_docs]. rewrite filter_app. cbn.
    now rewrite app_nil_r.
  - destruct (login_users login_payload env s) as [E|(l1 & d & l2 & Hl & E)].
    + now apply same_users_same_admins.
    + unfold admin_ids. rewrite E, Hl, !filter_app. cbn [filter].
      replace (User.is_admin (fields (Mongo.touched (set_token (login_token env)) d)))
        with (User.is_admin (fields d)) by reflexivity.
      destruct (User.is_admin (fields d)); rewrite !map_app; reflexivity.
  - now rewrite me_read_only.
  - now rewrite list_products_store.
  - apply same_users_same_admins, product_handlers_keep_users. exact "".
  - apply same_users_same_admins, (product_handlers_keep_users product_id).
  - apply same_users_same_admins,
      (product_handlers_keep_users product_id product_payload).
  - apply same_users_same_admins, create_order_keeps_users.
  - now rewrite list_orders_read_only.
Qed.

(* ===================================================================== *)
(** ** Sessions: signup, login and the token *)

Lemma find_app_first {A} (f : A -> bool) l1 d l2 :
  (forall x, In x l1 -> f x = false) -> f d = true ->
  find f (l1 ++ d :: l2) = Some d.
Proof.
  induction l1 as [|x l1 IH]; intros Hl Hd; cbn [app find].
  - now rewrite Hd.
  - rewrite (Hl x (or_introl eq_refl)). apply IH; [|exact Hd].
    intros y Hy. apply Hl. now right.
Qed.

Lemma find_app_skip {A} (f : A -> bool) l1 d l2 :
  f d = false -> find f (l1 ++ d :: l2) = find f (l1 ++ l2).
Proof.
  intros Hd. induction l1 as [|x l1 IH]; cbn [app find].
  - now rewrite Hd.
  - now rewrite IH.
Qed.

Lemma login_token_truthy env : Py.truthy (login_token env) = true.
Proof. reflexivity. Qed.

Lemma fresh_not_token_is tok s x :
  fresh_token tok s -> In x (user_docs s) -> token_is tok x = false.
Proof.
  intros Hf Hx. destruct (token_is tok x) eqn:E; [|reflexivity].
  apply token_is_holds in E. now destruct (Hf x Hx).
Qed.

(** X4. The token a login returns authenticates as the user who logged
    in: with unique [_id]s and a token no record held before, [/api/me]
    called with "Bearer " followed by that token answers with the name,
    email and is_admin of the record found by the login's email. *)
Theorem X4_login_token_authenticates :
  forall payload env env' s resp s',
    ids_unique s ->
    fresh_token (login_token env) s ->
    login payload env s = (Ok resp, s') ->
    exists u,
      find (email_is (LoginPayload.email payload)) (user_docs s) = Some u
      /\ me (Some ("Bearer " ++ lr_token resp)%string) env' s'
         = (Ok (mkMeResponse (User.name (fields u)) (User.email (fields u))
                             (User.is_admin (fields u))), s').
Proof.
  intros payload env env' s resp s' Hids Hfresh. rewrite login_eq.
  destruct (find _ _) as [u|] eqn:Hf; [|discriminate].
  destruct (String.eqb _ _); [|discriminate].
  destruct (find_some _ _ Hf) as [Hin _].
  destruct (login_update u (set_token (login_token env)) _ Hids Hin)
    as (l1 & l2 & Hl & ->).
  intros [= <- <-]. exists u. split; [reflexivity|]. cbn [lr_token].
  unfold me, bind. rewrite bearer_token_bearer, user_from_token_eq.
  rewrite login_token_truthy. cbn [user_docs].
  rewrite find_app_first; [reflexivity| |].
  - intros x Hx. apply (fresh_not_token_is _ s); [exact Hfresh|].
    rewrite Hl. apply in_or_app. now left.
  - apply token_is_holds. reflexivity.
Qed.

(** X5. A login logs nobody else out: with a store in order and a new
    token, a token held by a user with another email address resolves
    to that same user after the login as before. *)
Theorem X5_login_keeps_other_sessions :
  forall payload env env' s resp s' v t,
    store_ok s ->
    fresh_token (login_token env) s ->
    login payload env s = (Ok resp, s') ->
    In v (user_docs s) ->
    holds_token t v ->
    t <> "" ->
    User.email (fields v) <> LoginPayload.email payload ->
    user_from_token (Some t) env' s' = (Ok (Some (str_id v)), s').
Proof.
  intros payload env env' s resp s' v t (Hids & _ & Htok) Hfresh.
  rewrite login_eq.
  destruct (find _ _) as [u|] eqn:Hf; [|discriminate].
  destruct (String.eqb _ _); [|discriminate].
  destruct (find_some _ _ Hf) as [Hin He]. apply email_is_eq in He.
  destruct (login_update u (set_token (login_token env)) _ Hids Hin)
    as (l1 & l2 & Hl & ->).
  intros [= _ <-] Hv Ht Hne Hmail.
  rewrite user_from_token_eq. cbn [user_docs].
  destruct t as [|c t]; [congruence|]. cbn [Py.truthy].
  assert (Hu : token_is (String c t) u = false).
  { destruct (token_is (String c t) u) eqn:E; [|reflexivity].
    apply token_is_holds in E.
    assert (u = v) by (apply (Htok (String c t)); assumption). congruence. }
  assert (Hu' : token_is (String c t)
                  (Mongo.touched (set_token (login_token env)) u) = false).
  { destruct (token_is _ (Mongo.touched _ u)) eqn:E; [|reflexivity].
    apply token_is_holds in E. unfold holds_token in E.
    cbn [Mongo.touched fields set_token User.token] in E.
    assert (E' : login_token env = String c t) by congruence.
    destruct (Hfresh v Hv). now rewrite E'. }
  rewrite (find_app_skip _ _ _ _ Hu'), <- (find_app_skip _ _ _ _ Hu), <- Hl.
  destruct (find_some_ex (token_is (String c t)) _ v Hv) as [w Hw];
    [now apply token_is_holds|].
  rewrite Hw. destruct (find_some _ _ Hw) as [Hwin Hwt].
  apply token_is_holds in Hwt.
  now rewrite (Htok _ w v Hwin Hv Hwt Ht).
Qed.

(** X6. Signup and login fit together: after a signup that was accepted
    (no record had the email), a login with the same email and password
    succeeds, in any later environment, and answers with the name given
    at signup and is_admin false. *)
Theorem X6_signup_then_login :
  forall payload env env' s,
    (forall u, In u (user_docs s) ->
               User.email (fields u) <> SignupPayload.email payload) ->
    fst (login (LoginPayload.mk (SignupPayload.email payload)
                                (SignupPayload.password payload))
               env' (snd (signup payload env s)))
    = Ok (mkLoginResponse (login_token env') (SignupPayload.name payload) false).
Proof.
  intros payload env env' s Hno. rewrite signup_eq.
  assert (Hnone : forall x, In x (user_docs s) ->
                            email_is (SignupPayload.email payload) x = false).
  { intros x Hx. destruct (email_is _ x) eqn:E; [|reflexivity].
    apply email_is_eq in E. now destruct (Hno x Hx). }
  rewrite (proj2 (find_none_iff _ _) Hnone). cbn [snd].
  rewrite login_eq. cbn [user_docs LoginPayload.email LoginPayload.password].
  rewrite find_app_first; [|exact Hnone|now apply email_is_eq].
  cbn [fields User.password_hash User.name User.is_admin].
  now rewrite String.eqb_refl.
Qed.

(* ===================================================================== *)
(** ** What signup and login keep true of the users *)

Lemma middle_not_elsewhere {A} l1 (u : Doc Bson.ObjectId A) l2 :
  NoDup (map _id (l1 ++ u :: l2)) -> ~ In u (l1 ++ l2).
Proof.
  intros Hnd Hin. rewrite map_app in Hnd. cbn [map] in Hnd.
  apply NoDup_remove_2 in Hnd. apply Hnd. rewrite <- map_app. now apply in_map.
Qed.

Lemma in_middle_cases {A} (x d : A) l1 l2 :
  In x (l1 ++ d :: l2) -> x = d \/ In x (l1 ++ l2).
Proof.
  intros Hx. apply in_app_or in Hx. destruct Hx as [Hx|[<-|Hx]].
  - right. apply in_or_app. now left.
  - now left.
  - right. apply in_or_app. now right.
Qed.

Lemma in_around_middle {A} (x d : A) l1 l2 :
  In x (l1 ++ l2) -> In x (l1 ++ d :: l2).
Proof.
  intros Hx. apply in_app_or in Hx. apply in_or_app.
  destruct Hx; [now left|right; now right].
Qed.

Lemma login_preserves_emails_unique payload env s :
  ids_unique s -> emails_unique s -> emails_unique (snd (login payload env s)).
Proof.
  intros Hids Hu. destruct (login_store payload env s Hids)
    as [->|(l1 & u & l2 & Hl & ->)]; [exact Hu|].
  unfold ids_unique in Hids. rewrite Hl in Hids.
  pose proof (middle_not_elsewhere _ _ _ Hids) as Hnot.
  assert (Hu_in : In u (user_docs s)) by (rewrite Hl; apply in_elt).
  intros a b Ha Hb E. cbn [user_docs] in Ha, Hb.
  destruct (in_middle_cases _ _ _ _ Ha) as [->|Ha'];
    destruct (in_middle_cases _ _ _ _ Hb) as [->|Hb'].
  - reflexivity.
  - exfalso. apply Hnot. cbn in E.
    assert (b = u) as <-; [|exact Hb'].
    apply Hu; [rewrite Hl; now apply in_around_middle|exact Hu_in|now symmetry].
  - exfalso. apply Hnot. cbn in E.
    assert (a = u) as <-; [|exact Ha'].
    apply Hu; [rewrite Hl; now apply in_around_middle|exact Hu_in|exact E].
  - apply Hu; [rewrite Hl; now apply in_around_middle
              |rewrite Hl; now apply in_around_middle|exact E].
Qed.

(** X7. Signup keeps the user records in order: if [_id]s, email
    addresses and tokens were unique before, they are unique after, as
    long as the record is inserted under an [_id] not yet in use.  The
    duplicate check is what keeps the email addresses unique. *)
Theorem X7_signup_keeps_users_in_order :
  forall payload env s,
    store_ok s ->
    (forall u, In u (user_docs s) -> _id u <> inserted_id env) ->
    store_ok (snd (signup payload env s)).
Proof.
  intros payload env s (Hids & Hmail & Htok) Hnew. split; [|split].
  - rewrite signup_eq. destruct (find _ _); [exact Hids|].
    unfold ids_unique in *. cbn [snd user_docs]. rewrite map_app. cbn [map _id].
    apply (Permutation_NoDup (Permutation_cons_append _ _)).
    constructor; [|exact Hids].
    intros Hin. apply in_map_iff in Hin. destruct Hin as (u & Hid & Hu).
    exact (Hnew u Hu Hid).
  - now apply signup_preserves_emails_unique.
  - rewrite signup_eq. destruct (find _ _); [exact Htok|].
    intros t a b Ha Hb Hta Htb. cbn [snd user_docs] in Ha, Hb.
    apply in_app_or in Ha. apply in_app_or in Hb.
    destruct Ha as [Ha|[<-|[]]]; [|discriminate Hta].
    destruct Hb as [Hb|[<-|[]]]; [|discriminate Htb].
    exact (Htok t a b Ha Hb Hta Htb).
Qed.

(** X8. Login keeps the user records in order: with a token no record
    holds yet, unique [_id]s, email addresses and tokens stay unique,
    whether the login succeeds or not. *)
Theorem X8_login_keeps_users_in_order :
  forall payload env s,
    store_ok s ->
    fresh_token (login_token env) s ->
    store_ok (snd (login payload env s)).
Proof.
  intros payload env s (Hids & Hmail & Htok) Hfresh. split; [|split].
  - now apply login_preserves_ids_unique.
  - now apply login_preserves_emails_unique.
  - now apply login_preserves_tokens_unique.
Qed.

(* ===================================================================== *)
(** ** Product handlers *)

Lemma hexdigit_not_space b :
  Py.isspace (Py.hexdigit (Byte.to_N b / 16)) = false.
Proof. destruct b; reflexivity. Qed.

Lemma fromhex_hexlify bs : Py.fromhex (Py.hexlify bs) = Some bs.
Proof.
  induction bs as [|b bs IH]; [reflexivity|].
  destruct (hex_of_byte_inv b) as (Hh & Hl & Hb).
  cbn [Py.hexlify fold_right Py.hex_of_byte Py.fromhex].
  fold (Py.hexlify bs). rewrite hexdigit_not_space, Hh, Hl, IH, Hb. reflexivity.
Qed.

Lemma objectid_of_str_str oid :
  List.length oid = 12%nat -> Bson.ObjectId_of_str (Bson.str oid) = Some oid.
Proof.
  intros Hlen. unfold Bson.ObjectId_of_str, Bson.str.
  rewrite hexlify_length, Hlen. cbn [Nat.mul Nat.add Nat.eqb].
  apply fromhex_hexlify.
Qed.

Lemma id_differs_eqb (a b : Bson.ObjectId) : a <> b -> Bson.eqb a b = false.
Proof.
  intros Hne. destruct (Bson.eqb a b) eqn:E; [|reflexivity].
  apply bytes_eqb_eq in E. contradiction.
Qed.

Lemma no_match_no_find {A} oid (l : list (Doc Bson.ObjectId A)) :
  (forall x, In x l -> _id x <> oid) ->
  find (fun p => Bson.eqb (_id p) oid) l = None.
Proof.
  intros H. apply find_none_iff. intros x Hx. now apply id_differs_eqb, H.
Qed.

Lemma delete_first_last {A} (q : Doc Bson.ObjectId A -> bool) l d :
  (forall x, In x l -> q x = false) -> q d = true ->
  Mongo.delete_first q (l ++ [d]) = (l, 1).
Proof.
  induction l as [|x l IH]; intros Hl Hd; cbn [app Mongo.delete_first].
  - now rewrite Hd.
  - rewrite (Hl x (or_introl eq_refl)), IH; [reflexivity| |exact Hd].
    intros y Hy. apply Hl. now right.
Qed.

(** X9. An admin's product creation checks the price and nothing else:
    a price that is not >= 0 (negative, or NaN) raises ValidationError,
    a 500 with nothing stored; any other payload is stored as one new
    product carrying exactly the six fields of the payload, and its
    [_id] is returned as a string. *)
Theorem X9_create_product_validates_price :
  forall payload authorization env s user,
    resolve authorization env s = (Ok user, s) ->
    is_admin_user user = true ->
    (nonneg (ProductPayload.price payload) = true ->
     create_product payload authorization env s
     = (Ok (Bson.str (inserted_id env)),
        mkStore (user_docs s) (product_docs s ++ [new_product payload env])
                (order_docs s)))
    /\ (nonneg (ProductPayload.price payload) = false ->
        create_product payload authorization env s = (Raise ValidationError, s)
        /\ status (fst (create_product payload authorization env s)) = 500).
Proof.
  intros payload authorization env s user Hr Hadm.
  rewrite (create_product_eq _ _ _ _ _ Hr), Hadm.
  unfold Product.valid, nonneg. cbn [product_of_payload Product.price].
  split; intros ->; [reflexivity|now split].
Qed.

(** X10. What an admin's update answers depends on the id alone: 400
    when [ObjectId] refuses the id string, 404 when it accepts it and no
    product has that id, success otherwise.  The payload is never validated, so an update also
    writes a price that creation would refuse. *)
Theorem X10_update_product_outcomes :
  forall product_id payload authorization env s user,
    resolve authorization env s = (Ok user, s) ->
    is_admin_user user = true ->
    let out := update_product product_id payload authorization env s in
    (Bson.ObjectId_of_str product_id = None ->
     out = (Raise (HTTPException 400 "Invalid product id"), s))
    /\ (forall oid,
           Bson.ObjectId_of_str product_id = Some oid ->
           (forall p, In p (product_docs s) -> _id p <> oid) ->
           out = (Raise (HTTPException 404 "Product not found"), s))
    /\ (forall oid p,
           Bson.ObjectId_of_str product_id = Some oid ->
           In p (product_docs s) -> _id p = oid ->
           fst out = Ok true).
Proof.
  intros product_id payload authorization env s user Hr Hadm out. subst out.
  rewrite (update_product_eq _ _ _ _ _ _ Hr), Hadm. split; [|split].
  - now intros ->.
  - intros oid -> Hno.
    destruct (update_first_spec (fun p => Bson.eqb (_id p) oid)
                (set_items (ProductPayload.model_dump payload)) (product_docs s))
      as [[_ ->]|(l1 & d & l2 & _ & Hf & _)].
    + cbn. now rewrite store_eta.
    + now rewrite (no_match_no_find oid _ Hno) in Hf.
  - intros oid p -> Hp Hid.
    destruct (update_first_spec (fun p => Bson.eqb (_id p) oid)
                (set_items (ProductPayload.model_dump payload)) (product_docs s))
      as [[Hn _]|(l1 & d & l2 & _ & _ & _ & _ & ->)]; [|reflexivity].
    pose proof (find_none _ _ Hn p Hp) as E. cbn in E.
    rewrite Hid in E. unfold Bson.eqb in E. now rewrite bytes_eqb_refl in E.
Qed.

(** X11. An admin's delete answers 400 when [ObjectId] refuses the id
    string and 404 when it accepts it and no product has that id, both
    without a write; otherwise it
    removes the first product with that id, and only that one: the
    products before and after it, the users and the orders stay. *)
Theorem X11_delete_product_outcomes :
  forall product_id authorization env s user,
    resolve authorization env s = (Ok user, s) ->
    is_admin_user user = true ->
    let out := delete_product product_id authorization env s in
    (Bson.ObjectId_of_str product_id = None ->
     out = (Raise (HTTPException 400 "Invalid product id"), s))
    /\ (forall oid,
           Bson.ObjectId_of_str product_id = Some oid ->
           (forall p, In p (product_docs s) -> _id p <> oid) ->
           out = (Raise (HTTPException 404 "Product not found"), s))
    /\ (forall oid p,
           Bson.ObjectId_of_str product_id = Some oid ->
           In p (product_docs s) -> _id p = oid ->
           exists l1 d l2,
             product_docs s = l1 ++ d :: l2
             /\ _id d = oid
             /\ (forall x, In x l1 -> _id x <> oid)
             /\ out = (Ok true, mkStore (user_docs s) (l1 ++ l2) (order_docs s))).
Proof.
  intros product_id authorization env s user Hr Hadm out. subst out.
  rewrite (delete_product_eq _ _ _ _ _ Hr), Hadm. split; [|split].
  - now intros ->.
  - intros oid -> Hno.
    destruct (delete_first_spec (fun p => Bson.eqb (_id p) oid) (product_docs s))
      as [[_ ->]|(l1 & d & l2 & _ & Hf & _)].
    + cbn. now rewrite store_eta.
    + now rewrite (no_match_no_find oid _ Hno) in Hf.
  - intros oid p -> Hp Hid.
    destruct (delete_first_spec (fun p => Bson.eqb (_id p) oid) (product_docs s))
      as [[Hn _]|(l1 & d & l2 & Hl & _ & Hl1 & Hd & ->)].
    + pose proof (find_none _ _ Hn p Hp) as E. cbn in E.
      rewrite Hid in E. unfold Bson.eqb in E. now rewrite bytes_eqb_refl in E.
    + exists l1, d, l2. apply bytes_eqb_eq in Hd. repeat split; auto.
      intros x Hx E. specialize (Hl1 x Hx). cbn in Hl1.
      apply bytes_eqb_eq in E. unfold Bson.eqb in Hl1. congruence.
Qed.

(** X12. Creating a product and then deleting it under the id that was
    returned gives back the store as it was: the id string the API hands
    out is accepted as an ObjectId and names the new product, provided
    MongoDB's [_id] is twelve bytes not yet used in the catalog. *)
Theorem X12_create_then_delete_restores :
  forall payload authorization env env' s user,
    resolve authorization env s = (Ok user, s) ->
    is_admin_user user = true ->
    nonneg (ProductPayload.price payload) = true ->
    List.length (inserted_id env) = 12%nat ->
    (forall p, In p (product_docs s) -> _id p <> inserted_id env) ->
    exists product_id s1,
      create_product payload authorization env s = (Ok product_id, s1)
      /\ delete_product product_id authorization env' s1 = (Ok true, s).
Proof.
  intros payload authorization env env' s user Hr Hadm Hprice Hlen Hnew.
  exists (Bson.str (inserted_id env)),
    (mkStore (user_docs s) (product_docs s ++ [new_product payload env])
             (order_docs s)).
  split.
  - rewrite (create_product_eq _ _ _ _ _ Hr), Hadm.
    unfold Product.valid. cbn [product_of_payload Product.price].
    unfold nonneg in Hprice. now rewrite Hprice.
  - rewrite (delete_product_eq _ _ env' _ user), Hadm.
    + rewrite (objectid_of_str_str _ Hlen). cbn [product_docs user_docs order_docs].
      rewrite delete_first_last.
      * cbn. now rewrite store_eta.
      * intros x Hx. now apply id_differs_eqb, Hnew.
      * cbn. apply bytes_eqb_refl.
    + now apply (resolve_frame authorization env s).
Qed.

(** X13. With unique product [_id]s, a product that was deleted is gone:
    deleting it again under the same id answers 404 and changes
    nothing. *)
Theorem X13_delete_twice_is_not_found :
  forall product_id authorization env env' s r s1,
    product_ids_unique s ->
    delete_product product_id authorization env s = (Ok r, s1) ->
    delete_product product_id authorization env' s1
    = (Raise (HTTPException 404 "Product not found"), s1).
Proof.
  intros product_id authorization env env' s r s1 Hnd.
  destruct (resolve_returns authorization env s) as [user Hr].
  rewrite (delete_product_eq _ _ _ _ _ Hr).
  destruct (is_admin_user user) eqn:Hadm; [|discriminate].
  destruct (Bson.ObjectId_of_str product_id) as [oid|] eqn:Hoid; [|discriminate].
  destruct (delete_first_spec (fun p => Bson.eqb (_id p) oid) (product_docs s))
    as [[_ ->]|(l1 & d & l2 & Hl & _ & _ & Hd & ->)]; [discriminate|].
  cbn [Z.eqb]. intros [= _ <-].
  rewrite (delete_product_eq _ _ env' _ user), Hadm, Hoid;
    [|now apply (resolve_frame authorization env s)].
  cbn [product_docs user_docs order_docs].
  apply bytes_eqb_eq in Hd. unfold product_ids_unique in Hnd. rewrite Hl in Hnd.
  rewrite map_app in Hnd. cbn [map] in Hnd. apply NoDup_remove_2 in Hnd.
  destruct (delete_first_spec (fun p => Bson.eqb (_id p) oid) (l1 ++ l2))
    as [[_ ->]|(k1 & e & k2 & Hk & _ & _ & He & _)]; [reflexivity|].
  exfalso. apply Hnd. apply bytes_eqb_eq in He. rewrite Hd, <- He, <- map_app.
  apply in_map. rewrite Hk. apply in_elt.
Qed.

(* ===================================================================== *)
(** ** The Authorization header *)

(** X14. A header carries a token exactly when it starts with the seven
    characters "Bearer " (this spelling, one space), and the token is
    everything after them, further spaces included; any other header,
    like no header, carries none. *)
Theorem X14_bearer_token_exactly :
  forall authorization t env s,
    (bearer_token authorization env s = (Ok (Some t), s)
     <-> authorization = Some ("Bearer " ++ t)%string)
    /\ (bearer_token authorization env s = (Ok None, s)
        <-> forall t', authorization <> Some ("Bearer " ++ t')%string).
Proof.
  intros authorization t env s.
  destruct authorization as [a|].
  - destruct (Py.startswith a "Bearer ") eqn:E.
    + destruct (startswith_bearer a E) as [t0 ->].
      rewrite bearer_token_bearer. split; split.
      * now intros [= ->].
      * now intros [= ->].
      * discriminate.
      * intros H. now destruct (H t0).
    + rewrite (bearer_token_other a env s E). split; split.
      * discriminate.
      * intros Ha. assert (a = ("Bearer " ++ t)%string) by congruence.
        subst a. now rewrite startswith_bearer_app in E.
      * intros _ t' Ha. assert (a = ("Bearer " ++ t')%string) by congruence.
        subst a. now rewrite startswith_bearer_app in E.
      * reflexivity.
  - split; split; try discriminate; try reflexivity.
Qed.

(* ===================================================================== *)
(** ** Searching with a plain string *)

Lemma icontains_empty hay : icontains "" hay = true.
Proof. now destruct hay. Qed.

Lemma list_products_literal pattern env s :
  literal pattern = true ->
  list_products (Some pattern) env s =
  (Ok (map str_id (filter (title_or_category_contains pattern) (product_docs s))), s).
Proof.
  intros Hl. destruct (Py.truthy pattern) eqn:Ht.
  - now apply list_products_literal_search.
  - destruct pattern; [|discriminate].
    rewrite list_products_all by now right.
    do 3 f_equal. symmetry. rewrite <- (filter_all (product_docs s)) at 2.
    apply filter_ext. intros p. unfold title_or_category_contains.
    now rewrite icontains_empty.
Qed.

Lemma contains_iff pattern p :
  title_or_category_contains pattern p = true <->
  substring_ci pattern (Product.title (fields p))
  \/ substring_ci pattern (Product.category (fields p)).
Proof.
  unfold title_or_category_contains, substring_ci.
  now rewrite orb_true_iff, !icontains_substring.
Qed.

Lemma bool_ext (a b : bool) : (a = true <-> b = true) -> a = b.
Proof.
  destruct a, b; intros [H1 H2]; try reflexivity.
  - symmetry. now apply H1.
  - now apply H2.
Qed.

(** X15. On a catalog whose titles and categories are ASCII text, and
    for a search string of ASCII characters without regular expression
    metacharacters, the catalog listing returns, in catalog order,
    exactly the products whose title or category contains the string,
    letter case ignored on both sides; so two such strings that differ
    in letter case only give the same answer. *)
Theorem X15_plain_search_is_substring_search :
  forall pattern env s,
    literal pattern = true ->
    (forall p, In p (product_docs s) ->
               ascii_text (Product.title (fields p)) = true
               /\ ascii_text (Product.category (fields p)) = true) ->
    exists keep,
      list_products (Some pattern) env s
      = (Ok (map str_id (filter keep (product_docs s))), s)
      /\ (forall p, keep p = true <->
                    substring_ci pattern (Product.title (fields p))
                    \/ substring_ci pattern (Product.category (fields p)))
      /\ (forall pattern',
             literal pattern' = true ->
             lowercase pattern' = lowercase pattern ->
             list_products (Some pattern') env s
             = list_products (Some pattern) env s).
Proof.
  intros pattern env s Hl _. exists (title_or_category_contains pattern).
  split; [now apply list_products_literal|]. split; [apply contains_iff|].
  intros pattern' Hl' Hcase. rewrite !list_products_literal by assumption.
  do 3 f_equal. apply filter_ext. intros p. apply bool_ext.
  rewrite !contains_iff. unfold substring_ci. now rewrite Hcase.
Qed.

(* ===================================================================== *)
(** ** Signs of float sums and products *)

Lemma iter_pos_invariant {A} (P : A -> Prop) (f : A -> A) :
  (forall x, P x -> P (f x)) -> forall p x, P x -> P (iter_pos f p x).
Proof.
  intros Hf. induction p as [p IH|p IH|]; intros x Hx; cbn [iter_pos]; auto.
Qed.

Lemma shr_1_nonneg mrs : 0 <= shr_m mrs -> 0 <= shr_m (shr_1 mrs).
Proof. destruct mrs as [[|[p|p|]|p] r s]; cbn; lia. Qed.

Lemma shr_nonneg mrs e n : 0 <= shr_m mrs -> 0 <= shr_m (fst (shr mrs e n)).
Proof.
  intros H. destruct n as [|p|p]; cbn [shr fst]; try exact H.
  apply (iter_pos_invariant (fun r => 0 <= shr_m r)); [apply shr_1_nonneg|exact H].
Qed.

Lemma shr_fexp_nonneg prec emax m e l :
  0 <= m -> 0 <= shr_m (fst (shr_fexp prec emax m e l)).
Proof.
  intros H. unfold shr_fexp. apply shr_nonneg. now destruct l as [|[| |]].
Qed.

Lemma round_nearest_even_nonneg m l : 0 <= m -> 0 <= round_nearest_even m l.
Proof.
  intros H. destruct l as [|[| |]]; cbn [round_nearest_even]; try lia.
  destruct (Z.even m); lia.
Qed.

(** Rounding a mantissa that is not negative, with sign bit clear,
    gives zero, a positive number or plus infinity, never NaN. *)
Lemma binary_round_aux_nonneg m e l :
  0 <= m -> nonneg (binary_round_aux Py.prec Py.emax false m e l) = true.
Proof.
  intros H. unfold binary_round_aux.
  pose proof (shr_fexp_nonneg Py.prec Py.emax m e l H) as H1.
  destruct (shr_fexp Py.prec Py.emax m e l) as [mrs' e']. cbn [fst] in H1.
  pose proof (shr_fexp_nonneg Py.prec Py.emax _ e' loc_Exact
                (round_nearest_even_nonneg _ (loc_of_shr_record mrs') H1)) as H2.
  destruct (shr_fexp Py.prec Py.emax _ e' loc_Exact) as [mrs'' e''].
  cbn [fst] in H2. destruct (shr_m mrs'') as [|p|p]; [reflexivity| |lia].
  now destruct (e'' <=? Py.emax - Py.prec).
Qed.

Lemma binary_round_nonneg p e :
  nonneg (binary_round Py.prec Py.emax false p e) = true.
Proof.
  unfold binary_round. destruct (shl_align _ _ _) as [mz ez].
  now apply binary_round_aux_nonneg.
Qed.

Lemma fadd_nonneg x y :
  nonneg x = true -> nonneg y = true -> nonneg (Py.fadd x y) = true.
Proof.
  destruct x as [sx|[|]| |[|] mx ex]; destruct y as [sy|[|]| |[|] my ey];
    try discriminate; intros _ _; try reflexivity.
  - now destruct sx, sy.
  - unfold Py.fadd, SFadd. cbn [cond_Zopp].
    change (Z.pos ?a + Z.pos ?b) with (Z.pos (a + b)).
    cbn [binary_normalize]. apply binary_round_nonneg.
Qed.

Lemma sum_from_nonneg xs acc :
  nonneg acc = true -> Forall (fun x => nonneg x = true) xs ->
  nonneg (fold_left Py.fadd xs acc) = true.
Proof.
  revert acc. induction xs as [|x xs IH]; intros acc Ha Hxs; [exact Ha|].
  inversion_clear Hxs. cbn [fold_left]. apply IH; [now apply fadd_nonneg|assumption].
Qed.

(** The float of a positive int is zero or positive. *)
Lemma float_of_int_positive q y :
  1 <= q -> Py.float_of_int q = Some y -> ordinary_price y = true.
Proof.
  intros Hq. unfold Py.float_of_int. destruct q as [|p|p]; try lia.
  cbn [binary_normalize]. pose proof (binary_round_nonneg p 0) as H.
  destruct (binary_round Py.prec Py.emax false p 0) as [s|s| |[|] m e];
    try discriminate; now intros [= <-].
Qed.

Lemma fmul_ordinary x y :
  ordinary_price x = true -> ordinary_price y = true ->
  nonneg (Py.fmul x y) = true.
Proof.
  destruct x as [sx|sx| |[|] mx ex]; destruct y as [sy|sy| |[|] my ey];
    try discriminate; intros _ _; try reflexivity.
  unfold Py.fmul, SFmul. cbn [xorb]. now apply binary_round_aux_nonneg.
Qed.

Lemma line_totals_nonneg items xs :
  (forall item, In item items ->
                ordinary_price (OrderItem.price item) = true
                /\ OrderItem.valid item = true) ->
  line_totals items = Some xs -> Forall (fun x => nonneg x = true) xs.
Proof.
  revert xs. induction items as [|item items IH]; intros xs Hall; cbn [line_totals].
  - intros [= <-]. constructor.
  - destruct (Py.fmul_int _ _) as [x|] eqn:Ex; [|discriminate].
    destruct (line_totals items) as [xs'|]; [|discriminate].
    intros [= <-]. constructor.
    + destruct (Hall item (or_introl eq_refl)) as [Hp Hv].
      unfold Py.fmul_int in Ex.
      destruct (Py.float_of_int _) as [y|] eqn:Ey; [|discriminate].
      injection Ex as <-. apply fmul_ordinary; [exact Hp|].
      apply (float_of_int_positive _ _ (proj1 (Z.leb_le _ _) Hv) Ey).
    + apply IH; [|reflexivity]. intros i Hi. apply Hall. now right.
Qed.

(* ===================================================================== *)
(** ** More on checkout *)

Lemma resolve_unknown_token t env s :
  fresh_token t s -> resolve (Some ("Bearer " ++ t)%string) env s = (Ok None, s).
Proof.
  intros Hfresh. unfold resolve, bind.
  rewrite bearer_token_bearer, user_from_token_eq.
  destruct (Py.truthy t); [|reflexivity].
  rewrite (proj2 (find_none_iff _ _)); [reflexivity|].
  intros x Hx. now apply (fresh_not_token_is t s).
Qed.

Lemma resolve_no_header env s : resolve None env s = (Ok None, s).
Proof. reflexivity. Qed.

(** X16. After a checkout made under a user's token, the order is in
    that user's order listing: the document the checkout stored, with
    its [_id] as a string, is among the orders [list_orders] returns
    for the same header. *)
Theorem X16_own_order_is_listed :
  forall payload authorization env env' s u resp s',
    resolve authorization env s = (Ok (Some u), s) ->
    create_order payload authorization env s = (Ok resp, s') ->
    exists orders,
      list_orders authorization env' s' = (Ok orders, s')
      /\ In (str_id (order_doc payload (Some u) (or_total resp) env)) orders
      /\ Order.user_id (fields (order_doc payload (Some u) (or_total resp) env))
         = Some (_id u).
Proof.
  intros payload authorization env env' s u resp s' Hr.
  rewrite (create_order_eq _ _ _ _ _ Hr).
  destruct (order_total _) as [total|]; [|discriminate].
  destruct (Py.fleb Py.fzero total); [|discriminate].
  destruct (quantities_fit _); [|discriminate].
  intros [= <- <-]. cbn [or_total].
  rewrite (list_orders_eq _ env' _ (Some u));
    [|now apply (resolve_frame authorization env s)].
  eexists. split; [reflexivity|]. split; [|reflexivity].
  apply in_map.
  apply (Permutation_in _ (Permutation_sym (sort_created_at_desc_perm _))).
  apply filter_In. cbn [order_docs]. split; [apply in_elt|].
  destruct (User.is_admin (fields u)); [reflexivity|].
  apply owned_by_eq. reflexivity.
Qed.

(** X17. A token nobody holds is no obstacle at checkout: the request
    is handled exactly like one without an Authorization header, as a
    guest order, and is not answered with 401. *)
Theorem X17_unknown_token_checks_out_as_guest :
  forall payload t env s,
    fresh_token t s ->
    create_order payload (Some ("Bearer " ++ t)%string) env s
    = create_order payload None env s.
Proof.
  intros payload t env s Hfresh.
  rewrite (create_order_eq _ _ _ _ _ (resolve_unknown_token t env s Hfresh)).
  now rewrite (create_order_eq _ _ _ _ _ (resolve_no_header env s)).
Qed.

(** X18. The total >= 0 check never refuses a cart of ordinary items:
    when every item has a finite price that is not negative and a
    quantity of at least 1, the checkout either succeeds, with a total
    that is >= 0, or raises OverflowError for a quantity beyond the
    float range; and a cart with no items at all succeeds with total
    0. *)
Theorem X18_ordinary_cart_is_not_refused :
  forall payload authorization env s,
    (forall item, In item (CheckoutPayload.items payload) ->
                  ordinary_price (OrderItem.price item) = true
                  /\ OrderItem.valid item = true) ->
    ((exists resp s',
         create_order payload authorization env s = (Ok resp, s')
         /\ nonneg (or_total resp) = true)
     \/ create_order payload authorization env s = (Raise OverflowError, s))
    /\ (CheckoutPayload.items payload = [] ->
        exists s',
          create_order payload authorization env s
          = (Ok (mkOrderResponse (Bson.str (inserted_id env)) Py.fzero), s')).
Proof.
  intros payload authorization env s Hall.
  destruct (resolve_returns authorization env s) as [user Hr].
  rewrite (create_order_eq _ _ _ _ _ Hr). split.
  - unfold order_total.
    destruct (line_totals (CheckoutPayload.items payload)) as [xs|] eqn:E;
      [|now right].
    cbn [option_map].
    assert (Hge : nonneg (Py.sum xs) = true).
    { apply sum_from_nonneg; [reflexivity|].
      now apply (line_totals_nonneg (CheckoutPayload.items payload)). }
    unfold nonneg in Hge. rewrite Hge.
    destruct (quantities_fit _); [|now right].
    left. do 2 eexists. split; [reflexivity|]. exact Hge.
  - intros ->. eexists. reflexivity.
Qed.

Lemma fadd_nan_r x : Py.fadd x S754_nan = S754_nan.
Proof. now destruct x. Qed.

Lemma sum_from_nan xs : fold_left Py.fadd xs S754_nan = S754_nan.
Proof. induction xs as [|x xs IH]; [reflexivity|exact IH]. Qed.

Lemma sum_with_nan xs acc :
  In S754_nan xs -> fold_left Py.fadd xs acc = S754_nan.
Proof.
  revert acc. induction xs as [|x xs IH]; intros acc; [intros []|].
  intros [->|Hin]; cbn [fold_left].
  - rewrite fadd_nan_r. apply sum_from_nan.
  - now apply IH.
Qed.

Lemma line_totals_nan items xs item :
  In item items -> OrderItem.price item = S754_nan ->
  line_totals items = Some xs -> In S754_nan xs.
Proof.
  revert xs. induction items as [|i items IH]; intros xs; [intros []|].
  intros Hin Hnan. cbn [line_totals].
  destruct (Py.fmul_int _ _) as [x|] eqn:Ex; [|discriminate].
  destruct (line_totals items) as [xs'|]; [|discriminate].
  intros [= <-]. destruct Hin as [->|Hin].
  - left. unfold Py.fmul_int in Ex. rewrite Hnan in Ex.
    destruct (Py.float_of_int _); [|discriminate]. now injection Ex as <-.
  - right. now apply IH.
Qed.

Lemma line_totals_overflow items item :
  In item items -> Py.float_of_int (OrderItem.quantity item) = None ->
  line_totals items = None.
Proof.
  induction items as [|i items IH]; [intros []|].
  intros [->|Hin] Hq; cbn [line_totals].
  - unfold Py.fmul_int. now rewrite Hq.
  - rewrite (IH Hin Hq). now destruct (Py.fmul_int _ _).
Qed.

(** X19. A cart with an item whose price is NaN is never stored: the
    request fails, with ValidationError because the total is NaN (or
    with OverflowError if a quantity is out of range), and the store is
    unchanged. *)
Theorem X19_nan_price_is_refused :
  forall payload authorization env s item,
    In item (CheckoutPayload.items payload) ->
    OrderItem.price item = S754_nan ->
    snd (create_order payload authorization env s) = s
    /\ (fst (create_order payload authorization env s) = Raise ValidationError
        \/ fst (create_order payload authorization env s) = Raise OverflowError).
Proof.
  intros payload authorization env s item Hin Hnan.
  destruct (resolve_returns authorization env s) as [user Hr].
  rewrite (create_order_eq _ _ _ _ _ Hr). unfold order_total.
  destruct (line_totals (CheckoutPayload.items payload)) as [xs|] eqn:E;
    [|split; [reflexivity|now right]].
  cbn [option_map]. unfold Py.sum.
  rewrite (sum_with_nan xs _ (line_totals_nan _ _ _ Hin Hnan E)).
  split; [reflexivity|now left].
Qed.

(** X20. A quantity too large to be converted to a float stops the
    checkout before the order is built: OverflowError, a 500, and the
    store is unchanged, whatever else the cart holds. *)
Theorem X20_quantity_overflow :
  forall payload authorization env s item,
    In item (CheckoutPayload.items payload) ->
    Py.float_of_int (OrderItem.quantity item) = None ->
    create_order payload authorization env s = (Raise OverflowError, s)
    /\ status (fst (create_order payload authorization env s)) = 500.
Proof.
  intros payload authorization env s item Hin Hq.
  destruct (resolve_returns authorization env s) as [user Hr].
  rewrite (create_order_eq _ _ _ _ _ Hr). unfold order_total.
  rewrite (line_totals_overflow _ _ Hin Hq). now split.
Qed.

(* ===================================================================== *)
(** ** Seeding the catalog *)

Lemma samples_valid :
  forallb (fun d => Product.valid (set_items d (Product.mk "" None Py.fzero "" None true)))
          samples = true.
Proof. vm_compute. reflexivity. Qed.

Lemma seed_loop_eq envs todo : forall i env s,
  forallb (fun d => Product.valid (set_items d (Product.mk "" None Py.fzero "" None true)))
          todo = true ->
  seed_loop envs i todo env s
  = (Ok tt, mkStore (user_docs s) (product_docs s ++ seeded envs i todo) (order_docs s)).
Proof.
  induction todo as [|d todo IH]; intros i env s Hv.
  - cbn. now rewrite app_nil_r, store_eta.
  - cbn [forallb] in Hv. apply andb_prop in Hv as [Hd Hv].
    cbn [seed_loop seeded]. unfold bind at 1. unfold in_env, bind, Product_new.
    rewrite Hd. cbn. rewrite (IH _ _ _ Hv). cbn. now rewrite <- app_assoc.
Qed.

Lemma seed_products_eq envs env s :
  seed_products envs env s
  = (Ok tt,
     match product_docs s with
     | [] => mkStore (user_docs s) (seeded envs 0 samples) (order_docs s)
     | _ :: _ => s
     end).
Proof.
  unfold seed_products, bind, count_documents. cbn [docs Db.product].
  destruct (product_docs s) as [|p l] eqn:E.
  - cbn [List.length Z.of_nat Z.eqb]. rewrite (seed_loop_eq _ _ _ _ _ samples_valid).
    now rewrite E.
  - reflexivity.
Qed.

(** X21. Seeding at startup is safe to repeat: it never raises, never
    touches users or orders and leaves a catalog that has any product
    exactly as it is.  Into an empty catalog it puts these four
    products, in this order, each under its own [_id] and time: the
    Aurora Card Wallet at 29.99, the Nebula Headphones at 129.0, the
    Lumos Desk Lamp at 49.5 and the Flux Water Bottle at 24.0, all in
    stock and all with a valid price.  Running it again changes
    nothing. *)
Theorem X21_seed_products_is_idempotent :
  forall envs envs' env env' s,
    let s1 := snd (seed_products envs env s) in
    fst (seed_products envs env s) = Ok tt
    /\ user_docs s1 = user_docs s
    /\ order_docs s1 = order_docs s
    /\ (product_docs s <> [] -> s1 = s)
    /\ (product_docs s = [] ->
        product_docs s1
        = [mkDoc (inserted_id (envs 0%nat))
                 (Product.mk
                    "Aurora Card Wallet"
                    (Some "Slim RFID wallet with glassmorphic sheen.")
                    (S754_finite false 8441434551552573 (-48))
                    "accessories"
                    (Some "https://images.unsplash.com/photo-1592417817030-2f1b1c86a8e7?q=80&w=1200&auto=format&fit=crop")
                    true)
                 (utcnow (envs 0%nat)) (utcnow (envs 0%nat));
           mkDoc (inserted_id (envs 1%nat))
                 (Product.mk
                    "Nebula Headphones"
                    (Some "Wireless noise-cancelling over-ears.")
                    (S754_finite false 4538783999459328 (-45))
                    "audio"
                    (Some "https://images.unsplash.com/photo-1518445145672-c8cfc6a2d6b1?q=80&w=1200&auto=format&fit=crop")
                    true)
                 (utcnow (envs 1%nat)) (utcnow (envs 1%nat));
           mkDoc (inserted_id (envs 2%nat))
                 (Product.mk
                    "Lumos Desk Lamp"
                    (Some "Minimal, touch dimmer, USB-C powered.")
                    (S754_finite false 6966505673588736 (-47))
                    "home"
                    (Some "https://images.unsplash.com/photo-1555041469-a586c61ea9bc?q=80&w=1200&auto=format&fit=crop")
                    true)
                 (utcnow (envs 2%nat)) (utcnow (envs 2%nat));
           mkDoc (inserted_id (envs 3%nat))
                 (Product.mk
                    "Flux Water Bottle"
                    (Some "Insulated steel, matte gradient.")
                    (S754_finite false 6755399441055744 (-48))
                    "outdoors"
                    (Some "https://images.unsplash.com/photo-1541506610-6913f8f24e5d?q=80&w=1200&auto=format&fit=crop")
                    true)
                 (utcnow (envs 3%nat)) (utcnow (envs 3%nat))]
        /\ Forall (fun p => Product.valid (fields p) = true) (product_docs s1))
    /\ snd (seed_products envs' env' s1) = s1.
Proof.
  intros envs envs' env env' s s1. subst s1. rewrite !seed_products_eq. cbn [fst snd].
  destruct (product_docs s) as [|p l] eqn:E.
  - split; [reflexivity|]. split; [reflexivity|]. split; [reflexivity|].
    split; [intros H; now destruct H|]. split; [|reflexivity].
    intros _. cbn [product_docs]. split.
    + cbn [seeded samples]. repeat f_equal; vm_compute; reflexivity.
    + repeat constructor; vm_compute; reflexivity.
  - rewrite E. split; [reflexivity|]. split; [reflexivity|]. split; [reflexivity|].
    split; [reflexivity|]. split; [discriminate|reflexivity].
Qed.

(* ===================================================================== *)
(** ** The shape of a password digest *)

Lemma round_length st kw : List.length (Sha256.round st kw) = List.length st.
Proof.
  destruct st as [|a [|b [|c [|d [|e [|f [|g [|h [|i st]]]]]]]]]; reflexivity.
Qed.

Lemma rounds_length kws : forall st,
  List.length (fold_left Sha256.round kws st) = List.length st.
Proof.
  induction kws as [|kw kws IH]; intros st; [reflexivity|].
  cbn [fold_left]. now rewrite IH, round_length.
Qed.

Lemma compress_length h block :
  List.length (Sha256.compress h block) = List.length h.
Proof.
  unfold Sha256.compress. rewrite length_map, length_combine, rounds_length.
  apply Nat.min_id.
Qed.

Lemma blocks_length n : forall h bs,
  List.length (Sha256.blocks n h bs) = List.length h.
Proof.
  induction n as [|n IH]; intros h bs; [reflexivity|].
  cbn [Sha256.blocks]. now rewrite IH, compress_length.
Qed.

Lemma be_bytes4_length h :
  List.length (flat_map (Sha256.be_bytes 4) h) = (4 * List.length h)%nat.
Proof.
  induction h as [|x h IH]; [reflexivity|].
  cbn [flat_map]. rewrite length_app, IH. cbn. lia.
Qed.

(** X22. Whatever the password, the empty one included, its digest is
    64 characters long and made of the digits 0-9 and a-f only. *)
Theorem X22_hash_password_shape :
  forall password,
    String.length (hash_password password) = 64%nat
    /\ forallb is_hexdigit (list_ascii_of_string (hash_password password)) = true.
Proof.
  intros password. unfold hash_password, Sha256.hexdigest. split.
  - rewrite hexlify_length. unfold Sha256.digest.
    rewrite length_map, be_bytes4_length, blocks_length. reflexivity.
  - apply hexlify_digits.
Qed.

(* ===================================================================== *)
(** ** Each handler and its collection *)

(** X23. Every handler writes to one collection at most: signup and
    login to the users, the product handlers to the products, checkout
    to the orders.  The other two collections come out of the request
    as they went in, whatever the input and the outcome. *)
Theorem X23_handlers_write_to_their_own_collection :
  forall product_id signup_payload login_payload product_payload checkout
         authorization,
    (keeps_products (signup signup_payload) /\ keeps_orders (signup signup_payload))
    /\ (keeps_products (login login_payload) /\ keeps_orders (login login_payload))
    /\ (keeps_users (create_product product_payload authorization)
        /\ keeps_orders (create_product product_payload authorization))
    /\ (keeps_users (update_product product_id product_payload authorization)
        /\ keeps_orders (update_product product_id product_payload authorization))
    /\ (keeps_users (delete_product product_id authorization)
        /\ keeps_orders (delete_product product_id authorization))
    /\ (keeps_users (create_order checkout authorization)
        /\ keeps_products (create_order checkout authorization)).
Proof.
  intros.
  assert (Hprod : forall env s,
             order_docs (snd (create_product product_payload authorization env s))
             = order_docs s
             /\ order_docs (snd (update_product product_id product_payload
                                                authorization env s)) = order_docs s
             /\ order_docs (snd (delete_product product_id authorization env s))
                = order_docs s).
  { intros env s. destruct (resolve_returns authorization env s) as [user Hr].
    rewrite (create_product_eq _ _ _ _ _ Hr), (update_product_eq _ _ _ _ _ _ Hr),
      (delete_product_eq _ _ _ _ _ Hr).
    destruct (is_admin_user user); [|now repeat split].
    split; [now destruct (Product.valid _)|].
    destruct (Bson.ObjectId_of_str product_id) as [oid|]; [|now split].
    split.
    - now destruct (Mongo.update_first _ _ _).
    - now destruct (Mongo.delete_first _ _). }
  split; [|split; [|split; [|split; [|split]]]]; split; intros env s.
  - rewrite signup_eq. now destruct (find _ _).
  - rewrite signup_eq. now destruct (find _ _).
  - rewrite login_eq. destruct (find _ _); [|reflexivity].
    now destruct (String.eqb _ _).
  - rewrite login_eq. destruct (find _ _); [|reflexivity].
    now destruct (String.eqb _ _).
  - apply (product_handlers_keep_users product_id).
  - apply Hprod.
  - apply product_handlers_keep_users.
  - apply Hprod.
  - apply (product_handlers_keep_users product_id product_payload).
  - apply Hprod.
  - apply create_order_keeps_users.
  - destruct (resolve_returns authorization env s) as [user Hr].
    rewrite (create_order_eq _ _ _ _ _ Hr).
    destruct (order_total _); [|reflexivity].
    destruct (Py.fleb _ _); [|reflexivity]. now destruct (quantities_fit _).
Qed.

(** X24. Nobody is recognised without the token on their record: when
    a request resolves to an identity, its header is "Bearer " followed
    by a token that is not empty, and the identity is a user record
    that holds exactly this token.  A user who never logged in, whose
    token is null, is resolved by no header. *)
Theorem X24_identity_needs_the_stored_token :
  forall authorization env s u,
    resolve authorization env s = (Ok (Some u), s) ->
    exists t d,
      authorization = Some ("Bearer " ++ t)%string
      /\ t <> ""
      /\ In d (user_docs s)
      /\ User.token (fields d) = Some t
      /\ u = str_id d.
Proof.
  intros authorization env s u. unfold resolve, bind.
  destruct authorization as [a|].
  - destruct (Py.startswith a "Bearer ") eqn:E.
    + destruct (startswith_bearer a E) as [t ->].
      rewrite bearer_token_bearer, user_from_token_eq.
      destruct t as [|c t]; [discriminate|]. cbn [Py.truthy].
      destruct (find _ _) as [d|] eqn:Hf; [|discriminate].
      cbn [option_map]. intros [= <-].
      destruct (find_some _ _ Hf) as [Hin Ht]. apply token_is_holds in Ht.
      exists (String c t), d. repeat split; auto. discriminate.
    + rewrite (bearer_token_other a env s E), user_from_token_eq. discriminate.
  - cbv [bearer_token ret]. rewrite user_from_token_eq. discriminate.
Qed.

(** X25. The ids the catalog listing shows can be used as they are:
    with twelve-byte [_id]s in the store, an admin's delete under the
    [_id] string of any listed product succeeds. *)
Theorem X25_listed_ids_are_usable :
  forall authorization env env' s user listing p,
    resolve authorization env' s = (Ok user, s) ->
    is_admin_user user = true ->
    (forall d, In d (product_docs s) -> List.length (_id d) = 12%nat) ->
    list_products None env s = (Ok listing, s) ->
    In p listing ->
    fst (delete_product (_id p) authorization env' s) = Ok true.
Proof.
  intros authorization env env' s user listing p Hr Hadm Hlen.
  rewrite list_products_all by now left. intros [= <-] Hp.
  apply in_map_iff in Hp. destruct Hp as (d & <- & Hd).
  rewrite (delete_product_eq _ _ _ _ _ Hr), Hadm. cbn [str_id _id].
  rewrite (objectid_of_str_str _ (Hlen d Hd)).
  destruct (delete_first_spec (fun q => Bson.eqb (_id q) (_id d)) (product_docs s))
    as [[Hn _]|(l1 & e & l2 & _ & _ & _ & _ & ->)]; [|reflexivity].
  pose proof (find_none _ _ Hn d Hd) as E. cbn in E.
  unfold Bson.eqb in E. now rewrite bytes_eqb_refl in E.
Qed.

(* ===================================================================== *)
(** ** Further runs on the sample store *)

Lemma sample_emails_unique : emails_unique Sample.store.
Proof.
  intros u v [<-|[<-|[]]] [<-|[<-|[]]] E; try reflexivity;
    vm_compute in E; discriminate.
Qed.

Lemma sample_store_ok : store_ok Sample.store.
Proof.
  split; [exact sample_ids_unique|].
  split; [exact sample_emails_unique|exact sample_tokens_unique].
Qed.

Lemma sample_root_resolves :
  resolve Sample.root_header Sample.env Sample.store
  = (Ok (Some (str_id Sample.root)), Sample.store).
Proof. vm_compute. reflexivity. Qed.

Lemma sample_root_is_admin : is_admin_user (Some (str_id Sample.root)) = true.
Proof. reflexivity. Qed.

Lemma sample_ann_login_ok :
  login Sample.ann_login Sample.env Sample.store
  = (Ok (mkLoginResponse (login_token Sample.env) "Ann" false),
     snd (login Sample.ann_login Sample.env Sample.store)).
Proof. vm_compute. reflexivity. Qed.

(** Ann logs in and asks who she is, with the token she was given. *)
Lemma X4_witness :
  exists u,
    find (email_is (LoginPayload.email Sample.ann_login)) (user_docs Sample.store)
    = Some u
    /\ me (Some ("Bearer "
                   ++ lr_token (mkLoginResponse (login_token Sample.env) "Ann" false))%string)
          Sample.env2 (snd (login Sample.ann_login Sample.env Sample.store))
       = (Ok (mkMeResponse (User.name (fields u)) (User.email (fields u))
                           (User.is_admin (fields u))),
          snd (login Sample.ann_login Sample.env Sample.store)).
Proof.
  exact (X4_login_token_authenticates
           Sample.ann_login Sample.env Sample.env2 Sample.store _ _
           sample_ids_unique sample_token_fresh sample_ann_login_ok).
Defined.

(** Ann logs in; Root's token still resolves to Root. *)
Lemma X5_witness :
  user_from_token (Some Sample.root_token) Sample.env2
                  (snd (login Sample.ann_login Sample.env Sample.store))
  = (Ok (Some (str_id Sample.root)),
     snd (login Sample.ann_login Sample.env Sample.store)).
Proof.
  apply (X5_login_keeps_other_sessions
           Sample.ann_login Sample.env Sample.env2 Sample.store _ _
           Sample.root Sample.root_token
           sample_store_ok sample_token_fresh sample_ann_login_ok).
  - right. now left.
  - reflexivity.
  - discriminate.
  - vm_compute. discriminate.
Defined.

(** Bob signs up and logs in. *)
Lemma X6_witness :
  fst (login (LoginPayload.mk (SignupPayload.email Sample.bob_signup)
                              (SignupPayload.password Sample.bob_signup))
             Sample.env2 (snd (signup Sample.bob_signup Sample.env Sample.store)))
  = Ok (mkLoginResponse (login_token Sample.env2) "Bob" false).
Proof.
  apply (X6_signup_then_login Sample.bob_signup Sample.env Sample.env2 Sample.store).
  intros u [<-|[<-|[]]]; vm_compute; discriminate.
Defined.

Lemma X7_witness :
  store_ok (snd (signup Sample.bob_signup Sample.env Sample.store)).
Proof.
  apply (X7_signup_keeps_users_in_order
           Sample.bob_signup Sample.env Sample.store sample_store_ok).
  intros u [<-|[<-|[]]]; vm_compute; discriminate.
Defined.

Lemma X8_witness :
  store_ok (snd (login Sample.ann_login Sample.env Sample.store)).
Proof.
  exact (X8_login_keeps_users_in_order
           Sample.ann_login Sample.env Sample.store
           sample_store_ok sample_token_fresh).
Defined.

(** Root creates a mug; a mug priced at -1 is refused. *)
Lemma X9_witness :
  create_product Sample.mug Sample.root_header Sample.env Sample.store
  = (Ok (Bson.str (inserted_id Sample.env)),
     mkStore (user_docs Sample.store)
             (product_docs Sample.store ++ [new_product Sample.mug Sample.env])
             (order_docs Sample.store))
  /\ create_product Sample.minus_one Sample.root_header Sample.env Sample.store
     = (Raise ValidationError, Sample.store).
Proof.
  split.
  - apply (X9_create_product_validates_price
             Sample.mug _ _ _ _ sample_root_resolves sample_root_is_admin).
    reflexivity.
  - apply (X9_create_product_validates_price
             Sample.minus_one _ _ _ _ sample_root_resolves sample_root_is_admin).
    reflexivity.
Defined.

(** Root updates the wallet to a price of -1, and the update goes
    through; an id that is no ObjectId gives 400; an id of 24 characters
    with blanks between the bytes is an ObjectId, of ten bytes here, and
    gives 404. *)
Lemma X10_witness :
  fst (update_product Sample.wallet_id Sample.minus_one Sample.root_header
                      Sample.env Sample.store) = Ok true
  /\ update_product "wallet" Sample.minus_one Sample.root_header
                    Sample.env Sample.store
     = (Raise (HTTPException 400 "Invalid product id"), Sample.store)
  /\ update_product "0000 0000 0000 0000 0000" Sample.minus_one Sample.root_header
                    Sample.env Sample.store
     = (Raise (HTTPException 404 "Product not found"), Sample.store).
Proof.
  split; [|split].
  - pose proof (X10_update_product_outcomes
                  Sample.wallet_id Sample.minus_one _ _ _ _
                  sample_root_resolves sample_root_is_admin) as H.
    cbv zeta in H. destruct H as (_ & _ & Hok).
    apply (Hok (Sample.oid x03) Sample.wallet).
    + vm_compute. reflexivity.
    + now left.
    + reflexivity.
  - pose proof (X10_update_product_outcomes
                  "wallet" Sample.minus_one _ _ _ _
                  sample_root_resolves sample_root_is_admin) as H.
    cbv zeta in H. destruct H as (H400 & _). apply H400. reflexivity.
  - pose proof (X10_update_product_outcomes
                  "0000 0000 0000 0000 0000" Sample.minus_one _ _ _ _
                  sample_root_resolves sample_root_is_admin) as H.
    cbv zeta in H. destruct H as (_ & H404 & _).
    apply (H404 (repeat x00 10)).
    + vm_compute. reflexivity.
    + intros p [<-|[<-|[]]]; vm_compute; discriminate.
Defined.

(** Root deletes the wallet: the lamp is what is left.  Under an id of
    24 characters with blanks between the bytes the answer is 404. *)
Lemma X11_witness :
  (exists l1 d l2,
      product_docs Sample.store = l1 ++ d :: l2
      /\ _id d = Sample.oid x03
      /\ (forall x, In x l1 -> _id x <> Sample.oid x03)
      /\ delete_product Sample.wallet_id Sample.root_header Sample.env Sample.store
         = (Ok true,
            mkStore (user_docs Sample.store) (l1 ++ l2) (order_docs Sample.store)))
  /\ delete_product "0000 0000 0000 0000 0000" Sample.root_header
                    Sample.env Sample.store
     = (Raise (HTTPException 404 "Product not found"), Sample.store).
Proof.
  split.
  - pose proof (X11_delete_product_outcomes
                  Sample.wallet_id _ _ _ _
                  sample_root_resolves sample_root_is_admin) as H.
    cbv zeta in H. destruct H as (_ & _ & Hok).
    apply (Hok (Sample.oid x03) Sample.wallet).
    + vm_compute. reflexivity.
    + now left.
    + reflexivity.
  - pose proof (X11_delete_product_outcomes
                  "0000 0000 0000 0000 0000" _ _ _ _
                  sample_root_resolves sample_root_is_admin) as H.
    cbv zeta in H. destruct H as (_ & H404 & _).
    apply (H404 (repeat x00 10)).
    + vm_compute. reflexivity.
    + intros p [<-|[<-|[]]]; vm_compute; discriminate.
Defined.

Lemma X12_witness :
  exists product_id s1,
    create_product Sample.mug Sample.root_header Sample.env Sample.store
    = (Ok product_id, s1)
    /\ delete_product product_id Sample.root_header Sample.env2 s1
       = (Ok true, Sample.store).
Proof.
  apply (X12_create_then_delete_restores
           Sample.mug _ Sample.env Sample.env2 _ _
           sample_root_resolves sample_root_is_admin).
  - reflexivity.
  - reflexivity.
  - intros p [<-|[<-|[]]]; vm_compute; discriminate.
Defined.

Lemma sample_wallet_deleted :
  delete_product Sample.wallet_id Sample.root_header Sample.env Sample.store
  = (Ok true,
     snd (delete_product Sample.wallet_id Sample.root_header Sample.env Sample.store)).
Proof. vm_compute. reflexivity. Qed.

Lemma X13_witness :
  delete_product Sample.wallet_id Sample.root_header Sample.env2
    (snd (delete_product Sample.wallet_id Sample.root_header Sample.env Sample.store))
  = (Raise (HTTPException 404 "Product not found"),
     snd (delete_product Sample.wallet_id Sample.root_header Sample.env Sample.store)).
Proof.
  apply (X13_delete_twice_is_not_found
           Sample.wallet_id Sample.root_header Sample.env Sample.env2 Sample.store true).
  - unfold product_ids_unique. cbn.
    repeat constructor; cbn; intuition discriminate.
  - exact sample_wallet_deleted.
Defined.

(** Searching "LAMP" finds the lamp, as "lamp" does. *)
Lemma X15_witness :
  exists keep,
    list_products (Some "LAMP") Sample.env Sample.store
    = (Ok (map str_id (filter keep (product_docs Sample.store))), Sample.store)
    /\ keep Sample.lamp = true
    /\ list_products (Some "lamp") Sample.env Sample.store
       = list_products (Some "LAMP") Sample.env Sample.store.
Proof.
  assert (Hascii : forall p, In p (product_docs Sample.store) ->
                     ascii_text (Product.title (fields p)) = true
                     /\ ascii_text (Product.category (fields p)) = true).
  { intros p [<-|[<-|[]]]; split; reflexivity. }
  destruct (X15_plain_search_is_substring_search
              "LAMP" Sample.env Sample.store eq_refl Hascii)
    as (keep & Hl & Hk & Hcase).
  exists keep. split; [exact Hl|]. split.
  - apply Hk. left. exists "lumos desk ", "". reflexivity.
  - apply Hcase; reflexivity.
Defined.

(** Ann checks out and finds the order in her listing. *)
Lemma X16_witness :
  exists orders,
    list_orders Sample.ann_header Sample.env2
                (snd (create_order Sample.checkout Sample.ann_header
                                   Sample.env Sample.store))
    = (Ok orders,
       snd (create_order Sample.checkout Sample.ann_header Sample.env Sample.store))
    /\ In (str_id (order_doc Sample.checkout (Some (str_id Sample.ann))
                             (float_lit 30) Sample.env)) orders.
Proof.
  assert (H : create_order Sample.checkout Sample.ann_header Sample.env Sample.store
              = (Ok (mkOrderResponse (Bson.str (inserted_id Sample.env)) (float_lit 30)),
                 snd (create_order Sample.checkout Sample.ann_header
                                   Sample.env Sample.store)))
    by (vm_compute; reflexivity).
  destruct (X16_own_order_is_listed
              Sample.checkout Sample.ann_header Sample.env Sample.env2 Sample.store
              (str_id Sample.ann) _ _ sample_ann_resolves H)
    as (orders & Hl & Hin & _).
  exists orders. split; [exact Hl|exact Hin].
Defined.

Lemma X17_witness :
  create_order Sample.checkout (Some "Bearer nobody") Sample.env Sample.store
  = create_order Sample.checkout None Sample.env Sample.store.
Proof.
  apply (X17_unknown_token_checks_out_as_guest
           Sample.checkout "nobody" Sample.env Sample.store).
  intros u [<-|[<-|[]]]; unfold holds_token; vm_compute; discriminate.
Defined.

Lemma X18_witness :
  (exists resp s',
      create_order Sample.checkout None Sample.env Sample.store = (Ok resp, s')
      /\ nonneg (or_total resp) = true)
  \/ create_order Sample.checkout None Sample.env Sample.store
     = (Raise OverflowError, Sample.store).
Proof.
  apply (X18_ordinary_cart_is_not_refused Sample.checkout None Sample.env Sample.store).
  intros item [<-|[]]. split; reflexivity.
Defined.

Lemma X19_witness :
  snd (create_order Sample.nan_cart None Sample.env Sample.store) = Sample.store
  /\ (fst (create_order Sample.nan_cart None Sample.env Sample.store)
      = Raise ValidationError
      \/ fst (create_order Sample.nan_cart None Sample.env Sample.store)
         = Raise OverflowError).
Proof.
  apply (X19_nan_price_is_refused
           Sample.nan_cart None Sample.env Sample.store
           (OrderItem.mk Sample.wallet_id "Aurora Card Wallet" S754_nan 1 None)).
  - right. now left.
  - reflexivity.
Defined.

(** A quantity of 2^1024 does not fit a float. *)
Lemma X20_witness :
  create_order Sample.huge_cart None Sample.env Sample.store
  = (Raise OverflowError, Sample.store)
  /\ status (fst (create_order Sample.huge_cart None Sample.env Sample.store)) = 500.
Proof.
  apply (X20_quantity_overflow
           Sample.huge_cart None Sample.env Sample.store (Sample.item 10 (2 ^ 1024))).
  - right. now left.
  - vm_compute. reflexivity.
Defined.

(** Ann's header resolves to Ann, who holds the token in it. *)
Lemma X24_witness :
  exists t d,
    Sample.ann_header = Some ("Bearer " ++ t)%string
    /\ t <> ""
    /\ In d (user_docs Sample.store)
    /\ User.token (fields d) = Some t
    /\ str_id Sample.ann = str_id d.
Proof.
  exact (X24_identity_needs_the_stored_token
           Sample.ann_header Sample.env Sample.store (str_id Sample.ann)
           sample_ann_resolves).
Defined.

Lemma sample_listing :
  list_products None Sample.env2 Sample.store
  = (Ok [str_id Sample.wallet; str_id Sample.lamp], Sample.store).
Proof. reflexivity. Qed.

(** Root deletes the lamp under the id the listing shows. *)
Lemma X25_witness :
  fst (delete_product (_id (str_id Sample.lamp)) Sample.root_header
                      Sample.env Sample.store) = Ok true.
Proof.
  apply (X25_listed_ids_are_usable
           Sample.root_header Sample.env2 Sample.env Sample.store
           (Some (str_id Sample.root))
           [str_id Sample.wallet; str_id Sample.lamp]
           (str_id Sample.lamp)
           sample_root_resolves sample_root_is_admin).
  - intros d [<-|[<-|[]]]; reflexivity.
  - exact sample_listing.
  - right. now left.
Defined.
